(** * Bookkeeping: CSV ingestion, tiered deduplication and duplicate review

    A shallow embedding of the ingestion pipeline of [csv_to_postgres.py]
    (amount cleaning, the two row fingerprints, the three-rule
    deduplication, the import against the store) and of the duplicate
    review tools of [mcp/tools/management_tools.py] (staging and review),
    with the properties of the specification stated over it.

    Conventions.
    - A Python [str] is a [string] of its UTF-8 bytes.
    - A Python [float] that holds an amount, a balance or a score is the
      rational it denotes ([Q]); NaN is a separate case.  Nothing below
      depends on binary rounding.
    - Library functions whose results only matter up to equality (the
      digests of [hashlib], the decimal rendering of a float, the parsing
      and rendering of a calendar date) are the fields of [PyLib]. *)

From Stdlib Require Import ZArith QArith Qabs Ascii String List Bool Lia.
From stdpp Require Import base gmap strings.
Import ListNotations.

Local Open Scope string_scope.
Local Open Scope Z_scope.

(** ** Python strings *)

Module Str.

Definition chr (n : nat) : ascii := ascii_of_nat n.
Definition of_char (c : ascii) : string := String c EmptyString.

(** The double quote character, as a one-character string. *)
Definition dquote : string := of_char (chr 34).

Definition is_digit (c : ascii) : bool :=
  let n := nat_of_ascii c in (48 <=? n)%nat && (n <=? 57)%nat.

Definition digit_val (c : ascii) : Z := Z.of_nat (nat_of_ascii c) - 48.

(** [str.isspace] on the ASCII range: TAB, LF, VT, FF, CR, FS..US, SPACE. *)
Definition is_space (c : ascii) : bool :=
  let n := nat_of_ascii c in
  ((9 <=? n)%nat && (n <=? 13)%nat) || ((28 <=? n)%nat && (n <=? 32)%nat).

Fixpoint lstrip (s : string) : string :=
  match s with
  | String c t => if is_space c then lstrip t else s
  | EmptyString => EmptyString
  end.

(** Drops the trailing white space: a character stays when it is not a
    space or when something stays after it. *)
Fixpoint rstrip (s : string) : string :=
  match s with
  | EmptyString => EmptyString
  | String c t =>
      match rstrip t with
      | EmptyString => if is_space c then EmptyString else of_char c
      | t' => String c t'
      end
  end.

(** [s.strip()] *)
Definition strip (s : string) : string := rstrip (lstrip s).



(** [s[:n]] *)
Definition take (n : nat) (s : string) : string := substring 0 n s.

(** [series.str.replace(r'[...]', rep, regex=True)] for a character
    class: every character of the class is replaced by [rep]. *)
Fixpoint replace_class (cls : ascii -> bool) (rep : string) (s : string) : string :=
  match s with
  | EmptyString => EmptyString
  | String c t =>
      (if cls c then rep else of_char c) ++ replace_class cls rep t
  end.


Definition hex_digit (n : nat) : ascii :=
  if (n <? 10)%nat then chr (48 + n) else chr (87 + n).

(** Decimal rendering of a natural number, most significant digit first. *)
Fixpoint digits_fuel (fuel n : nat) (acc : string) : string :=
  match fuel with
  | O => acc
  | S f =>
      let acc' := String (chr (48 + n mod 10)) acc in
      if (n <? 10)%nat then acc' else digits_fuel f (n / 10) acc'
  end.

(** [str(n)] for [n >= 0] *)
Definition of_nat (n : nat) : string := digits_fuel (S n) n EmptyString.

(** [str(z)] *)
Definition of_Z (z : Z) : string :=
  if z <? 0 then "-" ++ of_nat (Z.to_nat (- z)) else of_nat (Z.to_nat z).

Fixpoint zeros (n : nat) : string :=
  match n with O => EmptyString | S k => String "0"%char (zeros k) end.


End Str.

(** ** Numeric literals *)

Module Numeric.

(** Splits off the longest prefix of decimal digits. *)
Fixpoint span_digits (s : string) : list ascii * string :=
  match s with
  | String c t =>
      if Str.is_digit c
      then let '(ds, r) := span_digits t in (c :: ds, r)
      else ([], s)
  | EmptyString => ([], EmptyString)
  end.

Definition digits_value (ds : list ascii) : Z :=
  fold_left (fun acc c => 10 * acc + Str.digit_val c) ds 0.

Definition parse_sign (s : string) : bool * string :=
  match s with
  | String "-"%char t => (true, t)
  | String "+"%char t => (false, t)
  | _ => (false, s)
  end.

(** The optional exponent part [e[+-]ddd]; [None] when what follows the
    mantissa is not an exponent that ends the string. *)
Definition parse_exponent (s : string) : option Z :=
  match s with
  | EmptyString => Some 0
  | String c t =>
      if (Ascii.eqb c "e" || Ascii.eqb c "E")%bool then
        let '(neg, t1) := parse_sign t in
        match span_digits t1 with
        | (d :: ds, EmptyString) =>
            let e := digits_value (d :: ds) in
            Some (if neg then - e else e)
        | _ => None
        end
      else None
  end.

Definition pow10 (e : Z) : Q :=
  if e <? 0 then 1 / inject_Z (10 ^ (- e)) else inject_Z (10 ^ e).

(** The value of a decimal literal
    [[+-] (digits [. digits] | . digits) [e [+-] digits]], and [None]
    (NaN under [errors="coerce"]) for every other string.  The literals
    of infinity that [pd.to_numeric] reads ([inf], [Infinity]) are left
    out: they too read [None] here. *)
Definition parse_decimal (s : string) : option Q :=
  let '(neg, s1) := parse_sign s in
  let '(ip, s2) := span_digits s1 in
  let '(fp, s3) :=
    match s2 with
    | String "."%char t => span_digits t
    | _ => ([], s2)
    end in
  match ip, fp with
  | [], [] => None
  | _, _ =>
      match parse_exponent s3 with
      | None => None
      | Some e =>
          let m := digits_value (ip ++ fp) in
          let q := Qred (inject_Z (if neg then - m else m)
                         * pow10 (e - Z.of_nat (List.length fp))) in
          Some q
      end
  end.

End Numeric.

(** ** Library functions of the Python side *)

(** [hashlib.sha256(b).hexdigest()], [hashlib.md5(b).hexdigest()], the
    rendering of a float by [repr] (also what [json.dumps] and an f-string
    without a format write) and by the format [.2f],
    [pd.to_datetime(s).date()] as a day ordinal, and its [isoformat]. *)
Class PyLib := {
  sha256_hexdigest : string -> string;
  md5_hexdigest : string -> string;
  float_repr : Q -> string;
  float_format_2f : Q -> string;
  to_date : string -> Z;
  date_isoformat : Z -> string
}.

(** ** Values of a row *)

(** A cell of a row: a string, a float, or a missing value (NaN, NaT). *)
Inductive value : Type :=
| VStr (s : string)
| VFloat (q : Q)
| VNaN.

(** A row handed to the fingerprint functions: a mapping from column
    names to cells, read with [row.get(key, default)]. *)
Abbreviation row_dict := (gmap string value).

Module Py.

(** [row.get(key, default)] *)
Definition get (row : row_dict) (key : string) (default : value) : value :=
  match row !! key with
  | Some v => v
  | None => default
  end.

(** [pd.isna(v)] *)
Definition isna (v : value) : bool :=
  match v with VNaN => true | _ => false end.

(** [v == s] for a string [s] *)
Definition eq_str (v : value) (s : string) : bool :=
  match v with VStr t => String.eqb t s | _ => false end.

(** [str(v)] *)
Definition str `{PyLib} (v : value) : string :=
  match v with
  | VStr s => s
  | VFloat q => float_repr q
  | VNaN => "nan"
  end.

(** [float(v)]: a float is itself; a string is read as a literal, and
    [None] stands for the [ValueError] of a string that is not one.
    NaN stays NaN, which no caller below passes on. *)
Definition float (v : value) : option Q :=
  match v with
  | VFloat q => Some q
  | VStr s => Numeric.parse_decimal (Str.strip s)
  | VNaN => None
  end.

End Py.

(** ** JSON rendering, as [json.dumps(..., ensure_ascii=False)] does it *)

Module Json.

Definition backslash : string := Str.of_char (Str.chr 92).

(** One character inside a JSON string: the quote, the backslash and the
    control characters are escaped, everything else is kept. *)
Definition escape_char (c : ascii) : string :=
  let n := nat_of_ascii c in
  if (n =? 34)%nat then backslash ++ Str.dquote
  else if (n =? 92)%nat then backslash ++ backslash
  else if (n =? 10)%nat then backslash ++ "n"
  else if (n =? 13)%nat then backslash ++ "r"
  else if (n =? 9)%nat then backslash ++ "t"
  else if (n =? 12)%nat then backslash ++ "f"
  else if (n =? 8)%nat then backslash ++ "b"
  else if (n <? 32)%nat then
    backslash ++ "u00"
      ++ Str.of_char (Str.hex_digit (n / 16))
      ++ Str.of_char (Str.hex_digit (n mod 16))
  else Str.of_char c.

Fixpoint escape (s : string) : string :=
  match s with
  | EmptyString => EmptyString
  | String c t => escape_char c ++ escape t
  end.

Inductive json : Type :=
| JStr (s : string)
| JNum (q : Q).

Definition render `{PyLib} (j : json) : string :=
  match j with
  | JStr s => Str.dquote ++ escape s ++ Str.dquote
  | JNum q => float_repr q
  end.

Definition render_item `{PyLib} (kv : string * json) : string :=
  Str.dquote ++ escape (fst kv) ++ Str.dquote ++ ":" ++ render (snd kv).

Fixpoint render_items `{PyLib} (kvs : list (string * json)) : string :=
  match kvs with
  | [] => EmptyString
  | [kv] => render_item kv
  | kv :: rest => render_item kv ++ "," ++ render_items rest
  end.

(** [json.dumps(payload, separators=(",", ":"), ensure_ascii=False)] for
    a dict literal, whose keys keep the order they are written in. *)
Definition dumps `{PyLib} (payload : list (string * json)) : string :=
  "{" ++ render_items payload ++ "}".

End Json.

(** ** The store *)

(** The three tables the code reads and writes ([models.py]), with the
    columns of theirs the code names.  A calendar date is its day ordinal
    and a timestamp a number; [None] is SQL's NULL. *)
Module Db.

Record Transaction : Type := {
  tx_id : Z;
  tx_date : Z;
  tx_description : string;
  tx_amount : Q;
  tx_category : option string;
  tx_vendor : option string;
  tx_source : option string;
  tx_txn_id : option string;
  tx_reference : option string;
  tx_account : option string;
  tx_balance : option Q;
  tx_original_hash : string;
  tx_possible_dup_group : option string;
  tx_row_hash : string;
  tx_time_part : option string
}.

Record DuplicateReview : Type := {
  dr_group_id : string;
  dr_transaction_id : Z;
  dr_similarity_score : Q;
  dr_notes : option string;
  dr_reviewed : bool;
  dr_action_taken : option string;
  dr_reviewed_by : option string;
  dr_reviewed_at : option Z;
  dr_created_at : Z
}.

Record ProcessingLog : Type := {
  log_id : Z;
  log_operation_type : string;
  log_source_file : option string;
  log_records_processed : Z;
  log_records_inserted : Z;
  log_records_skipped : Z;
  log_error_count : Z;
  log_status : string
}.

Record Store : Type := {
  transactions : list Transaction;
  duplicate_review : list DuplicateReview;
  processing_log : list ProcessingLog
}.

(** The next value of a serial primary key. *)
Definition next_id (ids : list Z) : Z := 1 + fold_right Z.max 0 ids.

End Db.

(** ** csv_to_postgres.py: amounts and fingerprints *)

Module CsvToPostgres.

(** [clean_amount], on one cell of the series: commas, dollar signs and
    white space are removed, each parenthesis becomes a minus sign, and
    [pd.to_numeric(..., errors="coerce")] reads the result ([None] is NaN). *)
Definition clean_amount (s : string) : option Q :=
  let cleaned :=
    Str.replace_class
      (fun c => Ascii.eqb c "(" || Ascii.eqb c ")") "-"
      (Str.replace_class
         (fun c => Ascii.eqb c "," || Ascii.eqb c "$" || Str.is_space c)
         EmptyString s) in
  Numeric.parse_decimal cleaned.

(** *** Column detection *)


(** A frame as [load_csv] returns it: the names of its columns, in
    their order, and for each row the text of its cell under a column,
    as [astype(str)] gives it (a missing cell reads [nan]). *)
Record frame : Type := {
  columns : list string;
  cells : list (string -> string)
}.


(** [df[col].astype(str)] *)
Definition column (df : frame) (col : string) : list string :=
  map (fun row => row col) (cells df).







Section Fingerprints.
Context `{PyLib}.

(** [row_content_hash]; [None] stands for the exception [float] raises
    on a cell that is not a number. *)
Definition row_content_hash (row : row_dict) : option string :=
  let date_val := Py.get row "Date" (VStr "") in
  let date_val :=
    if Py.isna date_val || Py.eq_str date_val "NaT" then VStr "" else date_val in
  let amount_val := Py.get row "Amount" (VFloat 0) in
  let amount_val := if Py.isna amount_val then VFloat 0 else amount_val in
  let balance_val := Py.get row "Balance" (VStr "") in
  let balance_json :=
    if Py.isna balance_val || Py.eq_str balance_val ""
    then Some (Json.JStr "")
    else option_map Json.JNum (Py.float balance_val) in
  match Py.float amount_val, balance_json with
  | Some amount, Some bal =>
      let payload :=
        [ ("date", Json.JStr (Py.str date_val));
          ("desc", Json.JStr (Py.str (Py.get row "Description" (VStr ""))));
          ("amount", Json.JNum amount);
          ("txn", Json.JStr (Py.str (Py.get row "TxnId" (VStr ""))));
          ("ref", Json.JStr (Py.str (Py.get row "Reference" (VStr ""))));
          ("time", Json.JStr (Py.str (Py.get row "Time" (VStr ""))));
          ("acct", Json.JStr (Py.str (Py.get row "Account" (VStr ""))));
          ("bal", bal) ] in
      let blob := Json.dumps payload in
      Some (Str.take 16 (sha256_hexdigest blob))
  | _, _ => None
  end.

(** [possible_dup_group] *)
Definition possible_dup_group (row : row_dict) : option string :=
  let date_val := Py.get row "Date" (VStr "") in
  let date_val :=
    if Py.isna date_val || Py.eq_str date_val "NaT" then VStr "" else date_val in
  let amount_val := Py.get row "Amount" (VFloat 0) in
  let amount_val := if Py.isna amount_val then VFloat 0 else amount_val in
  match Py.float amount_val with
  | Some amount =>
      let key :=
        Py.str date_val ++ "|"
          ++ Str.strip (Py.str (Py.get row "Description" (VStr ""))) ++ "|"
          ++ float_format_2f amount in
      Some (Str.take 10 (sha256_hexdigest key))
  | None => None
  end.

(** [stable_rowhash(date, description, amount)], called with a
    [datetime.date], a string and a float. *)
Definition stable_rowhash (date : Z) (description : string) (amount : Q) : string :=
  let s := date_isoformat date ++ "|" ++ description ++ "|" ++ float_repr amount in
  md5_hexdigest s.

End Fingerprints.

(** *** The normalized frame *)

(** The balance column of [normalize_csv]: the empty string in every
    row when the file has no balance column, else the float read by
    [pd.to_numeric(..., errors="coerce")] ([None] is NaN). *)
Inductive balance_cell : Type :=
| NoBalanceColumn
| BalanceCell (b : option Q).

(** One row of the frame [normalize_csv] returns.  Rows whose amount is
    NaN are filtered out before the other columns are added, so
    [Amount] is a number. *)
Record Row : Type := {
  Date : string;
  Description : string;
  Amount : Q;
  Source : string;
  TxnId : string;
  Reference : string;
  Time : string;
  Account : string;
  Balance : balance_cell;
  OriginalHash : string;
  PossibleDupGroup : string
}.

Definition balance_value (b : balance_cell) : value :=
  match b with
  | NoBalanceColumn => VStr ""
  | BalanceCell (Some q) => VFloat q
  | BalanceCell None => VNaN
  end.

(** The row as [out.iterrows()] yields it when the fingerprints are
    computed. *)
Definition series_of (r : Row) : row_dict :=
  <["Date" := VStr (Date r)]>
  (<["Description" := VStr (Description r)]>
  (<["Amount" := VFloat (Amount r)]>
  (<["Source" := VStr (Source r)]>
  (<["TxnId" := VStr (TxnId r)]>
  (<["Reference" := VStr (Reference r)]>
  (<["Time" := VStr (Time r)]>
  (<["Account" := VStr (Account r)]>
  (<["Balance" := balance_value (Balance r)]> ∅)))))))).

(** The last two assignments of [normalize_csv]: the columns
    [OriginalHash] and [PossibleDupGroup] hold the fingerprints of the
    row. *)
Definition normalized `{PyLib} (r : Row) : Prop :=
  row_content_hash (series_of r) = Some (OriginalHash r) /\
  possible_dup_group (series_of r) = Some (PossibleDupGroup r).

(** The row with its two fingerprint columns filled in. *)
Definition with_fingerprints `{PyLib} (r : Row) : Row :=
  {| Date := Date r;
     Description := Description r;
     Amount := Amount r;
     Source := Source r;
     TxnId := TxnId r;
     Reference := Reference r;
     Time := Time r;
     Account := Account r;
     Balance := Balance r;
     OriginalHash := default "" (row_content_hash (series_of r));
     PossibleDupGroup := default "" (possible_dup_group (series_of r)) |}.

(** *** deduplicate_dataframe *)

(** [df.duplicated(subset=..., keep="first")]: a row is marked when a
    row before it has the same values in the [subset] columns; [same]
    compares two rows on those columns. *)
Fixpoint duplicated_from (same : Row -> Row -> bool) (seen df : list Row) : list bool :=
  match df with
  | [] => []
  | r :: t => existsb (same r) seen :: duplicated_from same (r :: seen) t
  end.

Definition duplicated (same : Row -> Row -> bool) (df : list Row) : list bool :=
  duplicated_from same [] df.

(** [df[mask]] for a boolean mask of the length of the frame. *)
Fixpoint select (mask : list bool) (df : list Row) : list Row :=
  match mask, df with
  | b :: m, r :: t => if b then r :: select m t else select m t
  | _, _ => []
  end.

(** [df.drop_duplicates(subset=..., keep="first")] *)
Definition drop_duplicates (same : Row -> Row -> bool) (df : list Row) : list Row :=
  select (map negb (duplicated same df)) df.

Definition nonempty (s : string) : bool := negb (String.eqb s "").

(** [(df["TxnId"] != "") & (df["Account"] != "")] *)
Definition mask1 (r : Row) : bool := nonempty (TxnId r) && nonempty (Account r).

(** [df["Reference"] != ""] *)
Definition mask2 (r : Row) : bool := nonempty (Reference r).

(** [subset=["TxnId", "Account"]] *)
Definition same_txnid_account (a b : Row) : bool :=
  String.eqb (TxnId a) (TxnId b) && String.eqb (Account a) (Account b).

(** [subset=["Reference", "Date", "Amount", "Time"]] *)
Definition same_reference_date_amount_time (a b : Row) : bool :=
  String.eqb (Reference a) (Reference b) && String.eqb (Date a) (Date b)
  && Qeq_bool (Amount a) (Amount b) && String.eqb (Time a) (Time b).

(** [subset=["OriginalHash"]] *)
Definition same_original_hash (a b : Row) : bool :=
  String.eqb (OriginalHash a) (OriginalHash b).

(** One of the first two rules: when some row carries the fields, the
    rows that carry them are deduplicated and the others are
    concatenated after them. *)
Definition masked_rule (mask : Row -> bool) (same : Row -> Row -> bool)
    (df : list Row) : list Row :=
  if existsb mask df then
    let has := List.filter mask df in
    let has_not := List.filter (fun r => negb (mask r)) df in
    drop_duplicates same has ++ has_not
  else df.

Definition rule1 : list Row -> list Row := masked_rule mask1 same_txnid_account.
Definition rule2 : list Row -> list Row := masked_rule mask2 same_reference_date_amount_time.
Definition rule3 : list Row -> list Row := drop_duplicates same_original_hash.

Definition deduplicate_dataframe (df : list Row) : list Row :=
  match df with
  | [] => df
  | _ =>
      let df := rule1 df in
      let df := rule2 df in
      rule3 df
  end.

(** *** The import *)

(** One dictionary of [prepare_transactions_for_db]. *)
Record prepared : Type := {
  p_date : Z;
  p_description : string;
  p_amount : Q;
  p_source : option string;
  p_txn_id : option string;
  p_reference : option string;
  p_account : option string;
  p_balance : option Q;
  p_original_hash : string;
  p_possible_dup_group : option string;
  p_row_hash : string;
  p_time_part : option string
}.

(** [str(x) if x else None] for a string cell *)
Definition str_or_none (s : string) : option string :=
  if nonempty s then Some s else None.

(** [float(row['Balance']) if pd.notna(row['Balance']) else None]: the
    outer [None] stands for the [ValueError] of [float] on the empty
    string, which is the cell of a file without a balance column. *)
Definition balance_or_none (b : balance_cell) : option (option Q) :=
  match b with
  | BalanceCell None => Some None
  | BalanceCell (Some q) => Some (Some q)
  | NoBalanceColumn => None
  end.

Section ImportBatch.
Context `{PyLib}.

Definition prepare_row (row : Row) : option prepared :=
  let date_val := to_date (Date row) in
  let row_hash := stable_rowhash date_val (Description row) (Amount row) in
  match balance_or_none (Balance row) with
  | Some bal =>
      Some {| p_date := date_val;
              p_description := Description row;
              p_amount := Amount row;
              p_source := str_or_none (Source row);
              p_txn_id := str_or_none (TxnId row);
              p_reference := str_or_none (Reference row);
              p_account := str_or_none (Account row);
              p_balance := bal;
              p_original_hash := OriginalHash row;
              p_possible_dup_group := str_or_none (PossibleDupGroup row);
              p_row_hash := row_hash;
              p_time_part := str_or_none (Time row) |}
  | None => None
  end.

(** [prepare_transactions_for_db]; [None] when a row raises. *)
Fixpoint prepare_transactions_for_db (df : list Row) : option (list prepared) :=
  match df with
  | [] => Some []
  | row :: rest =>
      match prepare_row row, prepare_transactions_for_db rest with
      | Some t, Some ts => Some (t :: ts)
      | _, _ => None
      end
  end.

End ImportBatch.

(** [TransactionOperations.get_existing_row_hashes]: the stored row
    hashes that are among the given ones. *)
Definition get_existing_row_hashes (s : Db.Store) (row_hashes : list string) : gset string :=
  match row_hashes with
  | [] => ∅
  | _ =>
      list_to_set
        (filter (fun h => h ∈ row_hashes) (map Db.tx_row_hash (Db.transactions s)))
  end.

(** The [Transaction] object built from a prepared dictionary, with the
    key the table assigns. *)
Definition to_transaction (id : Z) (t : prepared) : Db.Transaction :=
  {| Db.tx_id := id;
     Db.tx_date := p_date t;
     Db.tx_description := p_description t;
     Db.tx_amount := p_amount t;
     Db.tx_category := None;
     Db.tx_vendor := None;
     Db.tx_source := p_source t;
     Db.tx_txn_id := p_txn_id t;
     Db.tx_reference := p_reference t;
     Db.tx_account := p_account t;
     Db.tx_balance := p_balance t;
     Db.tx_original_hash := p_original_hash t;
     Db.tx_possible_dup_group := p_possible_dup_group t;
     Db.tx_row_hash := p_row_hash t;
     Db.tx_time_part := p_time_part t |}.

Fixpoint add_all (rows : list Db.Transaction) (ts : list prepared) : list Db.Transaction :=
  match ts with
  | [] => rows
  | t :: rest =>
      add_all (rows ++ [to_transaction (Db.next_id (map Db.tx_id rows)) t]) rest
  end.

(** The constraint [unique_row_hash] of the table. *)
Definition unique_row_hash (rows : list Db.Transaction) : Prop :=
  NoDup (map Db.tx_row_hash rows).

(** [TransactionOperations.insert_transactions_batch]: the session adds
    every row and commits; when the commit violates [unique_row_hash] the
    session is rolled back and the error is raised ([None]).  Of the
    constraints of the table this is the one modelled: the lengths of
    the text columns and the precision of [amount] and [balance] are
    not. *)
Definition insert_transactions_batch (s : Db.Store) (ts : list prepared)
    : option (nat * Db.Store) :=
  match ts with
  | [] => Some (O, s)
  | _ =>
      let rows := add_all (Db.transactions s) ts in
      if decide (unique_row_hash rows) then
        Some (List.length ts,
              {| Db.transactions := rows;
                 Db.duplicate_review := Db.duplicate_review s;
                 Db.processing_log := Db.processing_log s |})
      else None
  end.

(** [ProcessingLogOperations.start_operation] *)
Definition start_operation (s : Db.Store) (operation_type : string)
    (source_file : option string) : Z * Db.Store :=
  let id := Db.next_id (map Db.log_id (Db.processing_log s)) in
  (id,
   {| Db.transactions := Db.transactions s;
      Db.duplicate_review := Db.duplicate_review s;
      Db.processing_log :=
        Db.processing_log s ++
        [ {| Db.log_id := id;
             Db.log_operation_type := operation_type;
             Db.log_source_file := source_file;
             Db.log_records_processed := 0;
             Db.log_records_inserted := 0;
             Db.log_records_skipped := 0;
             Db.log_error_count := 0;
             Db.log_status := "pending" |} ] |}).

(** [ProcessingLogOperations.complete_operation] *)
Definition complete_operation (s : Db.Store) (id : Z)
    (processed inserted skipped errors : Z) (status : string) : Db.Store :=
  {| Db.transactions := Db.transactions s;
     Db.duplicate_review := Db.duplicate_review s;
     Db.processing_log :=
       map (fun e =>
              if Db.log_id e =? id then
                {| Db.log_id := Db.log_id e;
                   Db.log_operation_type := Db.log_operation_type e;
                   Db.log_source_file := Db.log_source_file e;
                   Db.log_records_processed := processed;
                   Db.log_records_inserted := inserted;
                   Db.log_records_skipped := skipped;
                   Db.log_error_count := errors;
                   Db.log_status := status |}
              else e)
           (Db.processing_log s) |}.

(** How a run of [main] ends once the files are read: an exception that
    leaves [main], exit code 1 after a failed insert, or exit code 0 with
    the counts of the summary. *)
Inductive import_outcome : Type :=
| Crashed
| InsertFailed (new_transactions : list prepared)
| Completed (new_transactions : list prepared) (skipped_count : nat).

(** [main], from the combined frame of the files read to the end: the
    processing log is started, the frame is deduplicated and prepared,
    the rows whose [row_hash] the store already holds are filtered out
    and the others are inserted in one batch. *)
Definition main `{PyLib} (input_path : string) (error_files : Z)
    (combined_df : list Row) (s : Db.Store) : import_outcome * Db.Store :=
  let '(log_id, s) := start_operation s "csv_import_postgres" (Some input_path) in
  let deduped_df := deduplicate_dataframe combined_df in
  match prepare_transactions_for_db deduped_df with
  | None => (Crashed, s)
  | Some transactions =>
      let row_hashes := map p_row_hash transactions in
      let existing_hashes := get_existing_row_hashes s row_hashes in
      let new_transactions :=
        filter (fun t => p_row_hash t ∉ existing_hashes) transactions in
      let skipped_count := (List.length transactions - List.length new_transactions)%nat in
      match insert_transactions_batch s new_transactions with
      | None =>
          (InsertFailed new_transactions,
           complete_operation s log_id (Z.of_nat (List.length transactions)) 0
             (Z.of_nat skipped_count) error_files "failed")
      | Some (_, s') =>
          (Completed new_transactions skipped_count,
           complete_operation s' log_id (Z.of_nat (List.length transactions))
             (Z.of_nat (List.length new_transactions))
             (Z.of_nat skipped_count) error_files "completed")
      end
  end.

End CsvToPostgres.

(** ** The database boundary of the MCP tools *)

(** The tools reach the store through [self.db.execute_query(query,
    params)] only, the method of [DatabaseManager] in [src/database.py]: one
    statement in a connection of its own ([get_connection]), which runs
    [cur.execute(query, params)], returns the rows of [cur.fetchall()]
    and commits, and which rolls back and lets the exception through when
    one of the steps raises.

    What the cursor holds after [execute] is a [cursor]: the rows of a
    result set, no result set (what [INSERT], [UPDATE] and [DELETE] leave
    without a [RETURNING] clause, and [fetchall] then raises), or the
    error of a statement the server refuses.  A statement is a function
    from the store to the cursor and the store as the statement leaves
    it, before the commit or the roll-back.

    The world carries, beside the store, which of the coming calls fail
    for a reason outside the store (the connection): the head of [faults]
    is consumed by each call, [true] makes it raise, and an empty list
    lets no call fail that way. *)
Module Exec.

Record World : Type := {
  store : Db.Store;
  faults : list bool
}.

Inductive result (A : Type) : Type :=
| Ok (a : A)
| Raised (msg : string).
Arguments Ok {A} a.
Arguments Raised {A} msg.

Definition M (A : Type) : Type := World -> result A * World.

Definition ret {A} (a : A) : M A := fun w => (Ok a, w).

Definition bind {A B} (m : M A) (k : A -> M B) : M B :=
  fun w =>
    match m w with
    | (Ok a, w') => k a w'
    | (Raised msg, w') => (Raised msg, w')
    end.

(** [try: m except Exception as e: handler(str(e))] *)
Definition try_except {A} (m : M A) (handler : string -> A) : M A :=
  fun w =>
    match m w with
    | (Ok a, w') => (Ok a, w')
    | (Raised msg, w') => (Ok (handler msg), w')
    end.

Inductive cursor (A : Type) : Type :=
| Rows (rows : A)
| NoResultSet
| Refused (msg : string).
Arguments Rows {A} rows.
Arguments NoResultSet {A}.
Arguments Refused {A} msg.

Definition statement (A : Type) : Type := Db.Store -> cursor A * Db.Store.

(** [DatabaseManager.execute_query]: the store changes when the
    statement has a result set to fetch, and in no other case. *)
Definition execute_query {A} (query : statement A) : M A :=
  fun w =>
    let rest := tl (faults w) in
    match faults w with
    | true :: _ =>
        (Raised "statement failed", {| store := store w; faults := rest |})
    | _ =>
        match query (store w) with
        | (Rows rows, s) => (Ok rows, {| store := s; faults := rest |})
        | (NoResultSet, _) =>
            (Raised "no results to fetch", {| store := store w; faults := rest |})
        | (Refused msg, _) => (Raised msg, {| store := store w; faults := rest |})
        end
    end.

(** [for x in xs: body(x)] *)
Fixpoint for_each {A} (xs : list A) (body : A -> M unit) : M unit :=
  match xs with
  | [] => ret tt
  | x :: rest => bind (body x) (fun _ => for_each rest body)
  end.


(** A world in which no call fails for a reason outside the store. *)
Definition reliable (s : Db.Store) : World := {| store := s; faults := [] |}.

End Exec.

#[export] Instance exec_ret : MRet Exec.M := @Exec.ret.
#[export] Instance exec_bind : MBind Exec.M := fun A B k m => Exec.bind m k.

(** Stable insertion sort, for [ORDER BY]: [le a b] when [a] may stand
    before [b]. *)
Module Sort.

Fixpoint insert {A} (le : A -> A -> bool) (x : A) (l : list A) : list A :=
  match l with
  | [] => [x]
  | y :: t => if le x y then x :: y :: t else y :: insert le x t
  end.

Definition sort {A} (le : A -> A -> bool) (l : list A) : list A :=
  fold_right (insert le) [] l.

End Sort.

(** ** mcp/tools/management_tools.py: staging and review of duplicates *)

Module ManagementTools.
Import Exec.


Record ReviewDuplicateParams : Type := {
  group_id : string;
  action : string;
  keep_transaction_id : option Z;
  notes : option string
}.

(** Truth value of an optional string: neither [None] nor empty. *)
Definition truthy (o : option string) : bool :=
  match o with
  | Some s => negb (String.eqb s "")
  | None => false
  end.


(** [COALESCE(notes || '; ', '') || text] *)
Definition append_note (old : option string) (text : string) : string :=
  match old with
  | Some n => n ++ "; " ++ text
  | None => text
  end.

(** *** Statements *)

(** The statements name columns that no table has: [deleted_at],
    [deletion_reason] and [notes] of [transactions], and [notes] of
    [processing_log] ([models.py] and the migration define none of
    them).  The server refuses such a statement. *)
Definition undefined_column {A} (column relation : string) : statement A :=
  fun s =>
    (Refused ("column " ++ column ++ " of relation " ++ relation ++ " does not exist"),
     s).



(** [INSERT INTO duplicate_review (group_id, transaction_id,
    similarity_score, notes, reviewed, created_at)] *)
Definition insert_review (now : Z) (group : string) (transaction_id : Z)
    (similarity_score : Q) (reason : string) : statement unit :=
  fun s =>
  (NoResultSet,
   {| Db.transactions := Db.transactions s;
      Db.duplicate_review :=
        Db.duplicate_review s ++
        [ {| Db.dr_group_id := group;
             Db.dr_transaction_id := transaction_id;
             Db.dr_similarity_score := similarity_score;
             Db.dr_notes := Some reason;
             Db.dr_reviewed := false;
             Db.dr_action_taken := None;
             Db.dr_reviewed_by := None;
             Db.dr_reviewed_at := None;
             Db.dr_created_at := now |} ];
      Db.processing_log := Db.processing_log s |}).

(** A row of the group query: a pending row of [duplicate_review] joined
    with its transaction. *)
Record group_row : Type := {
  transaction_id : Z;
  similarity_score : Q;
  review_notes : option string;
  date : Z;
  description : string;
  amount : Q;
  vendor : option string;
  account : option string
}.

Definition join (r : Db.DuplicateReview) (t : Db.Transaction) : group_row :=
  {| transaction_id := Db.dr_transaction_id r;
     similarity_score := Db.dr_similarity_score r;
     review_notes := Db.dr_notes r;
     date := Db.tx_date t;
     description := Db.tx_description t;
     amount := Db.tx_amount t;
     vendor := Db.tx_vendor t;
     account := Db.tx_account t |}.

(** The rows of [SELECT dr.transaction_id, dr.similarity_score,
    dr.notes, t.date, t.description, t.amount, t.vendor, t.account
    FROM duplicate_review dr JOIN transactions t
    ON dr.transaction_id = t.id
    WHERE dr.group_id = %s AND dr.reviewed = false ORDER BY t.date];
    rows of one date are listed in the order of [duplicate_review], where
    SQL leaves their order open. *)
Definition group_rows (group : string) (s : Db.Store) : list group_row :=
  Sort.sort (fun a b => date a <=? date b)
    (flat_map
       (fun r =>
          if String.eqb (Db.dr_group_id r) group && negb (Db.dr_reviewed r)
          then map (join r)
                 (List.filter (fun t => Db.tx_id t =? Db.dr_transaction_id r)
                    (Db.transactions s))
          else [])
       (Db.duplicate_review s)).

Definition select_group (group : string) : statement (list group_row) :=
  fun s => (Rows (group_rows group s), s).

(** [UPDATE transactions SET deleted_at = NOW(), deletion_reason = %s,
    notes = COALESCE(notes || '; ', '') || %s WHERE id = %s] *)
Definition soft_delete (reason text : string) (id : Z) : statement unit :=
  undefined_column "deleted_at" "transactions".

(** [UPDATE duplicate_review SET reviewed = true, action_taken = %s,
    reviewed_by = 'mcp_user', reviewed_at = NOW(),
    notes = COALESCE(notes || '; ', '') || %s WHERE group_id = %s] *)
Definition mark_reviewed (now : Z) (act text group : string) : statement unit :=
  fun s =>
  (NoResultSet,
   {| Db.transactions := Db.transactions s;
      Db.duplicate_review :=
        map (fun r =>
               if String.eqb (Db.dr_group_id r) group then
                 {| Db.dr_group_id := Db.dr_group_id r;
                    Db.dr_transaction_id := Db.dr_transaction_id r;
                    Db.dr_similarity_score := Db.dr_similarity_score r;
                    Db.dr_notes := Some (append_note (Db.dr_notes r) text);
                    Db.dr_reviewed := true;
                    Db.dr_action_taken := Some act;
                    Db.dr_reviewed_by := Some "mcp_user";
                    Db.dr_reviewed_at := Some now;
                    Db.dr_created_at := Db.dr_created_at r |}
               else r)
            (Db.duplicate_review s);
      Db.processing_log := Db.processing_log s |}).

(** [INSERT INTO processing_log (operation_type, source_file,
    records_processed, status, notes)
    VALUES ('duplicate_review', %s, %s, 'completed', %s)] *)
Definition insert_log (source_file : string) (records_processed : Z)
    (text : string) : statement unit :=
  undefined_column "notes" "processing_log".

(** *** review_duplicate *)

(** What [review_duplicate] returns, one constructor per [return] of the
    source; [Reviewed] carries the data of the final response (for each
    member whether it is reported KEPT). *)
Inductive review_reply : Type :=
| NoPendingReview (group : string)
| TooFewTransactions (group : string) (n : nat)
| InvalidAction (act : string)
| KeepTransactionIdRequired
| NotInGroup (keep : Z) (group : string) (available : list Z)
| Reviewed (group act action_result : string) (members : list (Z * bool))
| ErrorReviewing (msg : string).

Definition valid_actions : list string :=
  ["keep_both"; "delete_duplicate"; "merge"; "ignore"].

Definition in_strings (x : string) (l : list string) : bool :=
  existsb (String.eqb x) l.

Definition in_ids (x : Z) (l : list Z) : bool := existsb (Z.eqb x) l.

(** The tail of [review_duplicate] shared by the four actions: the group
    is marked reviewed, the action is logged, the response is built. *)
Definition finish_review (now : Z) (params : ReviewDuplicateParams)
    (group_transactions : list group_row) (action_result : string) : M review_reply :=
  execute_query
    (mark_reviewed now (action params)
       (if truthy (notes params)
        then "User decision: " ++ default "" (notes params)
        else "Action: " ++ action params)
       (group_id params));;
  execute_query
    (insert_log ("group_" ++ group_id params)
       (Z.of_nat (List.length group_transactions))
       ("Action: " ++ action params ++ "; " ++ action_result));;
  mret
    (Reviewed (group_id params) (action params) action_result
       (map (fun tx =>
               (transaction_id tx,
                negb (String.eqb (action params) "delete_duplicate")
                || match keep_transaction_id params with
                   | Some k => transaction_id tx =? k
                   | None => false
                   end))
            group_transactions)).

Definition review_duplicate_body (now : Z) (params : ReviewDuplicateParams)
    : M review_reply :=
  group_transactions ← execute_query (select_group (group_id params));
  match group_transactions with
  | [] => mret (NoPendingReview (group_id params))
  | _ =>
      if (List.length group_transactions <? 2)%nat then
        mret (TooFewTransactions (group_id params) (List.length group_transactions))
      else if negb (in_strings (action params) valid_actions) then
        mret (InvalidAction (action params))
      else if String.eqb (action params) "keep_both" then
        finish_review now params group_transactions
          "✅ Keeping both transactions - marked as not duplicates"
      else if String.eqb (action params) "delete_duplicate" then
        match keep_transaction_id params with
        | None => mret KeepTransactionIdRequired
        | Some keep =>
            if keep =? 0 then mret KeepTransactionIdRequired
            else
              let group_tx_ids := map transaction_id group_transactions in
              if negb (in_ids keep group_tx_ids) then
                mret (NotInGroup keep (group_id params) group_tx_ids)
              else
                for_each group_transactions
                  (fun tx =>
                     if negb (transaction_id tx =? keep) then
                       execute_query
                         (soft_delete "duplicate_review"
                            ("Duplicate of transaction " ++ Str.of_Z keep)
                            (transaction_id tx))
                     else mret tt);;
                finish_review now params group_transactions
                  ("🗑️ Soft-deleted duplicate(s), kept transaction " ++ Str.of_Z keep)
        end
      else if String.eqb (action params) "merge" then
        finish_review now params group_transactions
          "📎 Marked for merge - manual intervention required"
      else
        finish_review now params group_transactions
          "👁️ Ignored - marked as false positive"
  end.

(** [review_duplicate]: the body runs inside [try]; any exception becomes
    the reply [Error reviewing duplicate: ...]. *)
Definition review_duplicate (now : Z) (params : ReviewDuplicateParams)
    : M review_reply :=
  try_except (review_duplicate_body now params) ErrorReviewing.

(** *** stage_duplicates_for_review *)













End ManagementTools.

(** ** mcp/tools/management_tools.py: deleting a transaction *)

Module DeleteTransaction.
Import Exec.

Record DeleteTransactionParams : Type := {
  transaction_id : Z;
  reason : string;
  permanent : bool
}.

(** [str(b)] for a boolean *)
Definition str_bool (b : bool) : string := if b then "True" else "False".

(** *** Statements *)

(** [SELECT * FROM transactions WHERE id = %s AND deleted_at IS NULL] *)
Definition select_live (id : Z) : statement (list Db.Transaction) :=
  ManagementTools.undefined_column "deleted_at" "transactions".

(** [DELETE FROM transactions WHERE id = %s].  The column
    [duplicate_review.transaction_id] is a foreign key to
    [transactions.id] without an [ON DELETE] rule: the statement is
    refused when a row it would delete is referenced. *)
Definition delete_row (id : Z) : statement unit :=
  fun s =>
    if existsb (fun t => Db.tx_id t =? id) (Db.transactions s)
       && existsb (fun r => Db.dr_transaction_id r =? id) (Db.duplicate_review s)
    then (Refused "violates foreign key constraint", s)
    else
      (NoResultSet,
       {| Db.transactions :=
            List.filter (fun t => negb (Db.tx_id t =? id)) (Db.transactions s);
          Db.duplicate_review := Db.duplicate_review s;
          Db.processing_log := Db.processing_log s |}).

(** [INSERT INTO processing_log (operation_type, source_file,
    records_processed, status, notes)
    VALUES ('transaction_deletion', %s, 1, 'completed', %s)] *)
Definition insert_deletion_log (source_file text : string) : statement unit :=
  ManagementTools.undefined_column "notes" "processing_log".

(** *** delete_transaction *)

Inductive delete_reply : Type :=
| NotFound (id : Z)
| Deleted (id : Z) (permanently : bool) (tx : Db.Transaction)
| ErrorDeleting (msg : string).

Definition delete_transaction_body (now : Z) (params : DeleteTransactionParams)
    : M delete_reply :=
  transaction ← execute_query (select_live (transaction_id params));
  match transaction with
  | [] => mret (NotFound (transaction_id params))
  | tx :: _ =>
      (if permanent params then
         execute_query (delete_row (transaction_id params))
       else
         execute_query
           (ManagementTools.soft_delete (reason params)
              ("Deleted via MCP: " ++ reason params) (transaction_id params)));;
      execute_query
        (insert_deletion_log
           ("transaction_" ++ Str.of_Z (transaction_id params))
           ("Reason: " ++ reason params ++ "; Permanent: " ++ str_bool (permanent params)));;
      mret (Deleted (transaction_id params) (permanent params) tx)
  end.

(** [delete_transaction]: the body runs inside [try]; any exception
    becomes the reply [Error deleting transaction: ...]. *)
Definition delete_transaction (now : Z) (params : DeleteTransactionParams)
    : M delete_reply :=
  try_except (delete_transaction_body now params) ErrorDeleting.

End DeleteTransaction.

(** ** An instance of the library functions, to run the model *)

(** The properties below hold for every [PyLib].  To evaluate the model
    on concrete rows, this instance renders a 64-bit FNV-1a checksum in
    hexadecimal where a digest is asked for, writes a float as a decimal
    with the digits it needs, and reads [YYYY-MM-DD] as a day count. *)
Module Sample.

Definition fnv1a (offset : Z) (s : string) : Z :=
  fold_left
    (fun h c => (Z.lxor h (Z.of_nat (nat_of_ascii c)) * 1099511628211) mod 2 ^ 64)
    (list_ascii_of_string s) offset.

Fixpoint hex_fuel (digits : nat) (z : Z) (acc : string) : string :=
  match digits with
  | O => acc
  | S d => hex_fuel d (z / 16) (String (Str.hex_digit (Z.to_nat (z mod 16))) acc)
  end.

Definition hex16 (z : Z) : string := hex_fuel 16 z EmptyString.

(** Cents, rounded half away from zero, as [d.dd]. *)
Definition format_2f (q : Q) : string :=
  let cents := Z.abs (Qnum q) * 200 / Zpos (Qden q) in
  let cents := (cents + 1) / 2 in
  let frac := Str.of_nat (Z.to_nat (cents mod 100)) in
  (if (Qnum q <? 0) && (0 <? cents) then "-" else "")
    ++ Str.of_nat (Z.to_nat (cents / 100)) ++ "."
    ++ Str.zeros (2 - String.length frac) ++ frac.

(** A decimal with at most six places, trailing zeros dropped down to one
    place. *)
Fixpoint strip_zeros (places : nat) (m : Z) : nat * Z :=
  match places with
  | S p =>
      match p with
      | S _ => if m mod 10 =? 0 then strip_zeros p (m / 10) else (places, m)
      | O => (places, m)
      end
  | O => (places, m)
  end.

Definition repr (q : Q) : string :=
  let scaled := Z.abs (Qnum q) * 1000000 / Zpos (Qden q) in
  let '(places, m) := strip_zeros 6 scaled in
  let unit := 10 ^ Z.of_nat places in
  let frac := Str.of_nat (Z.to_nat (m mod unit)) in
  (if Qnum q <? 0 then "-" else "")
    ++ Str.of_nat (Z.to_nat (m / unit)) ++ "."
    ++ Str.zeros (places - String.length frac) ++ frac.

Definition number (s : string) : Z :=
  Numeric.digits_value (list_ascii_of_string s).

(** [YYYY-MM-DD] as days of a calendar of 31-day months. *)
Definition date_of (s : string) : Z :=
  (number (substring 0 4 s) * 12 + (number (substring 5 2 s) - 1)) * 31
  + (number (substring 8 2 s) - 1).

Definition pad (width : nat) (z : Z) : string :=
  let s := Str.of_nat (Z.to_nat z) in Str.zeros (width - String.length s) ++ s.

Definition iso_of (d : Z) : string :=
  pad 4 (d / 372) ++ "-" ++ pad 2 (d / 31 mod 12 + 1) ++ "-" ++ pad 2 (d mod 31 + 1).

#[export] Instance py : PyLib := {|
  sha256_hexdigest := fun s => hex16 (fnv1a 14695981039346656037 s);
  md5_hexdigest := fun s => hex16 (fnv1a 2166136261 s);
  float_repr := repr;
  float_format_2f := format_2f;
  to_date := date_of;
  date_isoformat := iso_of
|}.

End Sample.

(** ** Rows and stores of the examples *)

Module Examples.
Import CsvToPostgres.
#[local] Existing Instance Sample.py.

Definition row (date description : string) (amount : Q) (source txn_id reference
    account : string) (balance : Q) : Row :=
  with_fingerprints
    {| Date := date; Description := description; Amount := amount;
       Source := source; TxnId := txn_id; Reference := reference; Time := "";
       Account := account; Balance := BalanceCell (Some balance);
       OriginalHash := ""; PossibleDupGroup := "" |}.

(** One purchase, exported in two files. *)
Definition coffee : Row :=
  row "2024-01-03" "COFFEE SHOP #102" (- 9 # 2) "checking" "" "" "" (100 # 1).
Definition coffee_again : Row :=
  row "2024-01-03" "COFFEE SHOP #102" (- 9 # 2) "statement-2024-01" "" "" "" (100 # 1).

(** Two purchases of one day at one shop for one amount, each with its
    own transaction id and running balance; the export repeats the
    reference of the terminal in both. *)
Definition swipe1 : Row :=
  row "2024-01-03" "COFFEE SHOP #102" (- 9 # 2) "card" "TXN-0001" "POS4471" "4417" (100 # 1).
Definition swipe2 : Row :=
  row "2024-01-03" "COFFEE SHOP #102" (- 9 # 2) "card" "TXN-0002" "POS4471" "4417" (191 # 2).

(** The same two purchases in an export without a reference column. *)
Definition tap1 : Row :=
  row "2024-01-03" "COFFEE SHOP #102" (- 9 # 2) "card" "TXN-0001" "" "4417" (100 # 1).
Definition tap2 : Row :=
  row "2024-01-03" "COFFEE SHOP #102" (- 9 # 2) "card" "TXN-0002" "" "4417" (191 # 2).

(** A check as the paper statement lists it, and as the online export
    lists it, with the transaction id and the account. *)
Definition check_paper : Row :=
  row "2024-01-05" "CHECK 1042" (- 120 # 1) "statement" "" "1042" "" (880 # 1).
Definition check_online : Row :=
  row "2024-01-05" "Check #1042 paid" (- 120 # 1) "online" "F2024010500017" "1042" "4417" (880 # 1).

Definition empty_store : Db.Store :=
  {| Db.transactions := []; Db.duplicate_review := []; Db.processing_log := [] |}.

(** The purchase [coffee] once more, in a later export that has the
    transaction id and another running balance. *)
Definition coffee_later : Row :=
  row "2024-01-03" "COFFEE SHOP #102" (- 9 # 2) "card" "TXN-0001" "" "4417" (191 # 2).

(** The store after the import of [coffee]. *)
Definition store_with_coffee : Db.Store :=
  snd (main "downloads" 0 [coffee] empty_store).

(** A stored transaction with the given key, day, description, amount,
    transaction id and reference. *)
Definition tx (id day : Z) (description : string) (amount : Q)
    (txn_id reference : option string) : Db.Transaction :=
  {| Db.tx_id := id; Db.tx_date := day; Db.tx_description := description;
     Db.tx_amount := amount; Db.tx_category := None; Db.tx_vendor := None;
     Db.tx_source := None; Db.tx_txn_id := txn_id; Db.tx_reference := reference;
     Db.tx_account := Some "4417"; Db.tx_balance := None;
     Db.tx_original_hash := ""; Db.tx_possible_dup_group := None;
     Db.tx_row_hash := Str.of_Z id; Db.tx_time_part := None |}.

(** Three purchases of one day at one shop for one amount, and a rent
    payment. *)
Definition ledger : Db.Store :=
  {| Db.transactions :=
       [ tx 1 739000 "COFFEE SHOP #102" (- 9 # 2) None None;
         tx 2 739000 "COFFEE SHOP #102" (- 9 # 2) None None;
         tx 3 739000 "Coffee Shop #102" (- 9 # 2) None None;
         tx 4 738995 "RENT" (- 1200 # 1) None None ];
     Db.duplicate_review := [];
     Db.processing_log := [] |}.


(** A row of [duplicate_review] that waits for its review. *)
Definition pending (group : string) (transaction_id : Z) (score : Q) (reason : string)
    : Db.DuplicateReview :=
  {| Db.dr_group_id := group;
     Db.dr_transaction_id := transaction_id;
     Db.dr_similarity_score := score;
     Db.dr_notes := Some reason;
     Db.dr_reviewed := false;
     Db.dr_action_taken := None;
     Db.dr_reviewed_by := None;
     Db.dr_reviewed_at := None;
     Db.dr_created_at := 1000 |}.

(** The ledger with the first two purchases waiting for review as the
    group [DUP_0001]. *)
Definition staged_ledger : Db.Store :=
  {| Db.transactions := Db.transactions ledger;
     Db.duplicate_review :=
       [ pending "DUP_0001" 1 (85 # 100) "Same Description and Amount, 0 days apart";
         pending "DUP_0001" 2 (85 # 100) "Same Description and Amount, 0 days apart" ];
     Db.processing_log := [] |}.

Definition review_params (group act : string) (keep : option Z)
    : ManagementTools.ReviewDuplicateParams :=
  {| ManagementTools.group_id := group;
     ManagementTools.action := act;
     ManagementTools.keep_transaction_id := keep;
     ManagementTools.notes := None |}.

End Examples.

(** * Properties *)

Import CsvToPostgres.

(** ** Amount cleaning *)

Section CleanAmount.

(** The last character is a minus sign. *)
Fixpoint ends_with_minus (s : string) : bool :=
  match s with
  | EmptyString => false
  | String c EmptyString => Ascii.eqb c "-"
  | String _ t => ends_with_minus t
  end.

Lemma ends_with_minus_append (s : string) : ends_with_minus (s ++ "-") = true.
Proof.
  induction s as [|c t IH]; [reflexivity|].
  simpl. destruct (t ++ "-") eqn:E; [destruct t; discriminate|exact IH].
Qed.

Lemma ends_with_minus_tail c t :
  ends_with_minus (String c t) = true -> t = EmptyString \/ ends_with_minus t = true.
Proof. destruct t; [now left|now right]. Qed.

Lemma span_digits_ends (s : string) :
  ends_with_minus s = true -> ends_with_minus (snd (Numeric.span_digits s)) = true.
Proof.
  induction s as [|c t IH]; [discriminate|].
  intros E. cbn [Numeric.span_digits].
  destruct (Str.is_digit c) eqn:D; [|exact E].
  destruct (ends_with_minus_tail _ _ E) as [->|Et].
  - simpl in E. apply Ascii.eqb_eq in E. subst c. discriminate.
  - specialize (IH Et). destruct (Numeric.span_digits t). exact IH.
Qed.

Lemma parse_sign_ends (s : string) :
  ends_with_minus s = true ->
  snd (Numeric.parse_sign s) = EmptyString
  \/ ends_with_minus (snd (Numeric.parse_sign s)) = true.
Proof.
  intros E. destruct s as [|c t]; [discriminate|].
  unfold Numeric.parse_sign.
  destruct (ends_with_minus_tail _ _ E) as [->|Et].
  - destruct (Ascii.eqb_spec c "-") as [->|N]; [now left|].
    simpl in E. apply Ascii.eqb_eq in E. contradiction.
  - destruct c as [[] [] [] [] [] [] [] []]; simpl; auto.
Qed.

Lemma parse_exponent_ends (s : string) :
  ends_with_minus s = true -> Numeric.parse_exponent s = None.
Proof.
  intros E. destruct s as [|c t]; [discriminate|].
  unfold Numeric.parse_exponent.
  destruct (Ascii.eqb c "e" || Ascii.eqb c "E")%bool eqn:C; [|reflexivity].
  destruct (ends_with_minus_tail _ _ E) as [->|Et].
  - simpl in E. apply Ascii.eqb_eq in E. subst c. discriminate.
  - destruct (parse_sign_ends t Et) as [Z|Z];
      destruct (Numeric.parse_sign t) as [neg t1]; simpl in Z.
    + subst t1. reflexivity.
    + apply span_digits_ends in Z.
      destruct (Numeric.span_digits t1) as [ds r]. simpl in Z.
      destruct ds; [reflexivity|]. destruct r; [discriminate|reflexivity].
Qed.

Lemma parse_decimal_ends (s : string) :
  ends_with_minus s = true -> Numeric.parse_decimal s = None.
Proof.
  intros E. unfold Numeric.parse_decimal.
  destruct (parse_sign_ends s E) as [Z|Z];
    destruct (Numeric.parse_sign s) as [neg s1]; simpl in Z.
  - subst s1. reflexivity.
  - apply span_digits_ends in Z.
    destruct (Numeric.span_digits s1) as [ip s2]. simpl in Z.
    assert (E3 : ends_with_minus
                   (snd match s2 with
                        | String "."%char t => Numeric.span_digits t
                        | _ => ([], s2)
                        end) = true).
    { destruct s2 as [|c t]; [discriminate|].
      destruct (Ascii.eqb_spec c ".") as [->|N].
      - destruct (ends_with_minus_tail _ _ Z) as [->|Et]; [discriminate|].
        now apply span_digits_ends.
      - destruct c as [[] [] [] [] [] [] [] []]; try exact Z. now elim N. }
    destruct (match s2 with
              | String "."%char t => Numeric.span_digits t
              | _ => ([], s2)
              end) as [fp s3].
    simpl in E3. rewrite (parse_exponent_ends s3 E3).
    destruct ip, fp; reflexivity.
Qed.

Lemma string_app_assoc (a b c : string) : (a ++ b) ++ c = a ++ (b ++ c).
Proof.
  induction a as [|x t IH]; [reflexivity|].
  change (String x ((t ++ b) ++ c) = String x (t ++ (b ++ c))).
  now rewrite IH.
Qed.

Lemma replace_class_append cls rep (a b : string) :
  Str.replace_class cls rep (a ++ b)
  = Str.replace_class cls rep a ++ Str.replace_class cls rep b.
Proof.
  induction a as [|c t IH]; [reflexivity|].
  simpl. rewrite IH.
  now rewrite string_app_assoc.
Qed.

End CleanAmount.

(** C9 (the code departs from it).  An amount written between parentheses
    is meant to be read as negative, but [clean_amount] turns both
    parentheses into minus signs, so what [pd.to_numeric] receives ends
    with a minus sign and is coerced to NaN: every cell that ends with a
    closing parenthesis, such as [(4.50)] and [($1,234.56)], yields NaN,
    where the same amounts without parentheses are read. *)
Theorem clean_amount_parenthesized_is_nan :
  (forall s : string, clean_amount (s ++ ")") = None)
  /\ clean_amount "(4.50)" = None
  /\ clean_amount "($1,234.56)" = None
  /\ clean_amount "4.50" = Some (9 # 2)
  /\ clean_amount "-4.50" = Some (- 9 # 2)
  /\ clean_amount "$1,234.56" = Some (30864 # 25).
Proof.
  assert (G : forall s : string, clean_amount (s ++ ")") = None).
  { intros s. unfold clean_amount.
    rewrite !replace_class_append. simpl.
    apply parse_decimal_ends, ends_with_minus_append. }
  split; [exact G|].
  split; [exact (G "(4.50")|].
  split; [exact (G "($1,234.56")|].
  repeat split; vm_compute; reflexivity.
Qed.

(** ** The content hash *)

(** The columns the content hash reads, each with the value [row.get]
    falls back on when the row has no such column. *)
Definition fingerprint_defaults : list (string * value) :=
  [ ("Date", VStr ""); ("Description", VStr ""); ("Amount", VFloat 0);
    ("TxnId", VStr ""); ("Reference", VStr ""); ("Time", VStr "");
    ("Account", VStr ""); ("Balance", VStr "") ].

Definition fingerprint_fields : list string := map fst fingerprint_defaults.

Section ContentHash.
Context `{PyLib}.

Lemma get_ext (r1 r2 : row_dict) k d :
  r1 !! k = r2 !! k -> Py.get r1 k d = Py.get r2 k d.
Proof. unfold Py.get. now intros ->. Qed.

(** Two dictionaries that agree on the eight columns have the same
    content hash, whatever else they hold. *)
Lemma row_content_hash_ext (r1 r2 : row_dict) :
  (forall k, In k fingerprint_fields -> r1 !! k = r2 !! k) ->
  row_content_hash r1 = row_content_hash r2.
Proof.
  intros A. unfold row_content_hash.
  rewrite (get_ext r1 r2 "Date"), (get_ext r1 r2 "Amount"),
    (get_ext r1 r2 "Balance"), (get_ext r1 r2 "Description"),
    (get_ext r1 r2 "TxnId"), (get_ext r1 r2 "Reference"),
    (get_ext r1 r2 "Time"), (get_ext r1 r2 "Account");
    solve [reflexivity | apply A; cbn; tauto].
Qed.

(** A column that is missing is read as its default. *)
Lemma row_content_hash_absent (r : row_dict) k d :
  In (k, d) fingerprint_defaults -> r !! k = None ->
  row_content_hash (<[k := d]> r) = row_content_hash r.
Proof.
  intros I N.
  assert (G : forall k' d', In (k', d') fingerprint_defaults ->
                Py.get (<[k := d]> r) k' d' = Py.get r k' d').
  { intros k' d' I'. unfold Py.get.
    destruct (decide (k = k')) as [<-|Ne].
    - rewrite lookup_insert_eq, N.
      cbn in I, I'.
      repeat (destruct I as [I|I]; [inversion I; subst; clear I|]); try contradiction;
      repeat (destruct I' as [I'|I']; [inversion I'; subst; try discriminate|]);
      try contradiction; reflexivity.
    - now rewrite lookup_insert_ne. }
  unfold row_content_hash.
  rewrite (G "Date" (VStr "")), (G "Amount" (VFloat 0)), (G "Balance" (VStr "")),
    (G "Description" (VStr "")), (G "TxnId" (VStr "")), (G "Reference" (VStr "")),
    (G "Time" (VStr "")), (G "Account" (VStr ""));
    solve [reflexivity | cbn; tauto].
Qed.

Lemma series_of_lookup (r : Row) :
  series_of r !! "Date" = Some (VStr (Date r))
  /\ series_of r !! "Description" = Some (VStr (Description r))
  /\ series_of r !! "Amount" = Some (VFloat (Amount r))
  /\ series_of r !! "TxnId" = Some (VStr (TxnId r))
  /\ series_of r !! "Reference" = Some (VStr (Reference r))
  /\ series_of r !! "Time" = Some (VStr (Time r))
  /\ series_of r !! "Account" = Some (VStr (Account r))
  /\ series_of r !! "Balance" = Some (balance_value (Balance r)).
Proof. unfold series_of. repeat split; simplify_map_eq; reflexivity. Qed.

(** On a row of the frame nothing raises: the amount is a float and the
    balance is a float, NaN or the empty string. *)
Lemma row_content_hash_defined (r : Row) : is_Some (row_content_hash (series_of r)).
Proof.
  destruct (series_of_lookup r) as (D & _ & A & _ & _ & _ & _ & B).
  unfold row_content_hash, Py.get. rewrite D, A, B. cbn.
  destruct (Balance r) as [|[q|]]; cbn; eauto.
Qed.

End ContentHash.

(** C4.  The content hash is a function of the date, the description,
    the amount, the transaction id, the reference, the time, the account
    and the balance: two rows of the frame that agree on these eight
    columns (whatever their source) have the same [row_content_hash]; the
    hash is defined for every row; and a row from which one of the eight
    columns is missing hashes as the row that holds the default there (the
    empty string, zero for the amount), the key staying in the payload. *)
Theorem row_content_hash_pure `{PyLib} (r1 r2 : Row) :
  Date r1 = Date r2 -> Description r1 = Description r2 ->
  Amount r1 = Amount r2 -> TxnId r1 = TxnId r2 ->
  Reference r1 = Reference r2 -> Time r1 = Time r2 ->
  Account r1 = Account r2 -> Balance r1 = Balance r2 ->
  row_content_hash (series_of r1) = row_content_hash (series_of r2)
  /\ is_Some (row_content_hash (series_of r1))
  /\ (forall k d, In (k, d) fingerprint_defaults ->
        row_content_hash (delete k (series_of r1))
        = row_content_hash (<[k := d]> (series_of r1))).
Proof.
  intros E1 E2 E3 E4 E5 E6 E7 E8. split; [|split].
  - apply row_content_hash_ext. intros k I.
    destruct (series_of_lookup r1) as (A1 & A2 & A3 & A4 & A5 & A6 & A7 & A8).
    destruct (series_of_lookup r2) as (B1 & B2 & B3 & B4 & B5 & B6 & B7 & B8).
    cbn in I.
    repeat (destruct I as [<-|I]; [congruence|]). contradiction.
  - apply row_content_hash_defined.
  - intros k d I.
    rewrite <- (row_content_hash_absent (delete k (series_of r1)) k d I).
    + now rewrite insert_delete_eq.
    + apply lookup_delete_eq.
Qed.

(** The examples below run the model with the instance [Sample.py]. *)
#[local] Existing Instance Sample.py.


Lemma row_content_hash_pure_witness :
  Source Examples.coffee <> Source Examples.coffee_again
  /\ row_content_hash (series_of Examples.coffee)
     = row_content_hash (series_of Examples.coffee_again)
  /\ is_Some (row_content_hash (series_of Examples.coffee))
  /\ (forall k d, In (k, d) fingerprint_defaults ->
        row_content_hash (delete k (series_of Examples.coffee))
        = row_content_hash (<[k := d]> (series_of Examples.coffee))).
Proof.
  split; [discriminate|].
  apply (row_content_hash_pure Examples.coffee Examples.coffee_again);
    vm_compute; reflexivity.
Defined.


(** ** Deduplication *)

Section DropDuplicates.
Variable same : Row -> Row -> bool.

(** The rows kept when the rows of [seen] have come before. *)
Definition kept_after (seen l : list Row) : list Row :=
  select (map negb (duplicated_from same seen l)) l.

Lemma kept_after_cons seen r t :
  kept_after seen (r :: t)
  = if existsb (same r) seen then kept_after (r :: seen) t
    else r :: kept_after (r :: seen) t.
Proof. unfold kept_after. cbn. now destruct (existsb (same r) seen). Qed.

Lemma kept_after_incl seen l x : In x (kept_after seen l) -> In x l.
Proof.
  revert seen. induction l as [|r t IH]; intros seen; [intros []|].
  rewrite kept_after_cons.
  destruct (existsb (same r) seen); cbn; intros I.
  - right. eapply IH, I.
  - destruct I as [I|I]; [now left|right; eapply IH, I].
Qed.

Lemma drop_duplicates_incl l x : In x (drop_duplicates same l) -> In x l.
Proof. apply kept_after_incl. Qed.

Lemma kept_after_sublist seen l : sublist (kept_after seen l) l.
Proof.
  revert seen. induction l as [|r t IH]; intros seen; [constructor|].
  rewrite kept_after_cons.
  destruct (existsb (same r) seen); [apply sublist_cons|apply sublist_skip]; apply IH.
Qed.

Lemma existsb_false_iff (f : Row -> bool) l :
  existsb f l = false <-> forall x, In x l -> f x = false.
Proof.
  induction l as [|a t IH]; cbn; [easy|].
  rewrite orb_false_iff, IH. split.
  - intros [A B] x [<-|I]; auto.
  - intros A. split; [apply A; now left|intros x I; apply A; now right].
Qed.

Hypothesis same_refl : forall r, same r r = true.

(** A row survives when every row of the frame with its key is the row
    itself and no row seen before has its key. *)
Lemma kept_after_keeps seen l r :
  (forall x, In x seen -> same r x = false) ->
  In r l ->
  (forall x, In x l -> same r x = true -> x = r) ->
  In r (kept_after seen l).
Proof.
  revert seen. induction l as [|a t IH]; intros seen S I U; [destruct I|].
  rewrite kept_after_cons.
  destruct (same r a) eqn:E.
  - assert (a = r) by (apply U; [now left|exact E]). subst a.
    apply existsb_false_iff in S. rewrite S. now left.
  - assert (It : In r t).
    { destruct I as [->|I]; [|exact I].
      rewrite same_refl in E. discriminate. }
    assert (In r (kept_after (a :: seen) t)).
    { apply IH; [|exact It|intros x Ix; apply U; now right].
      intros x [<-|Ix]; [exact E|now apply S]. }
    destruct (existsb (same a) seen); [assumption|now right].
Qed.

(** The rows kept are the rows no earlier row of the frame shares the
    key of, each at its first place. *)
Lemma kept_after_first seen l r :
  In r (kept_after seen l) <->
  exists i, l !! i = Some r
    /\ (forall x, In x seen -> same r x = false)
    /\ (forall j r', (j < i)%nat -> l !! j = Some r' -> same r r' = false).
Proof.
  revert seen. induction l as [|a t IH]; intros seen.
  - split; [intros []|intros (i & L & _)]. destruct i; discriminate.
  - rewrite kept_after_cons. split.
    + intros I.
      assert (C : (a = r /\ existsb (same a) seen = false)
                  \/ In r (kept_after (a :: seen) t)).
      { destruct (existsb (same a) seen); [now right|].
        destruct I as [I|I]; [now left|now right]. }
      destruct C as [[-> E]|C].
      * exists O. split; [reflexivity|]. split; [now apply existsb_false_iff|].
        intros j r' Lt. lia.
      * apply IH in C. destruct C as (i & L & Hs & F).
        exists (S i). split; [exact L|]. split.
        { intros x Ix. apply Hs. now right. }
        intros [|j] r' Lt Lj.
        { injection Lj as <-. apply Hs. now left. }
        apply (F j); [lia|exact Lj].
    + intros (i & L & Hs & F). destruct i as [|i].
      * injection L as ->. apply existsb_false_iff in Hs. rewrite Hs. now left.
      * assert (C : In r (kept_after (a :: seen) t)).
        { apply IH. exists i. split; [exact L|]. split.
          - intros x [<-|Ix]; [apply (F O); [lia|reflexivity]|now apply Hs].
          - intros j r' Lt Lj. apply (F (S j)); [lia|exact Lj]. }
        destruct (existsb (same a) seen); [exact C|now right].
Qed.

End DropDuplicates.

Lemma filter_all (f : Row -> bool) l :
  (forall x, In x l -> f x = true) -> List.filter f l = l.
Proof.
  induction l as [|a t IH]; intros A; [reflexivity|].
  cbn. rewrite (A a) by now left. f_equal. apply IH. intros x I. apply A. now right.
Qed.

Lemma filter_none (f : Row -> bool) l :
  (forall x, In x l -> f x = false) -> List.filter f l = [].
Proof.
  induction l as [|a t IH]; intros A; [reflexivity|].
  cbn. rewrite (A a) by now left. apply IH. intros x I. apply A. now right.
Qed.

(** What it is for a rule to act on the rows that carry its fields only:
    the other rows leave it as they entered, in their order; the rows
    that carry the fields leave it deduplicated on the key; and when some
    row carries the fields these rows come first in the frame that
    leaves the rule. *)
Definition acts_on_carrying (mask : Row -> bool) (same : Row -> Row -> bool)
    (rule : list Row -> list Row) : Prop :=
  forall df,
    List.filter (fun r => negb (mask r)) (rule df)
    = List.filter (fun r => negb (mask r)) df
    /\ List.filter mask (rule df) = drop_duplicates same (List.filter mask df)
    /\ rule df
       = if existsb mask df
         then (List.filter mask (rule df)
               ++ List.filter (fun r => negb (mask r)) (rule df))%list
         else df.

Lemma masked_rule_acts mask same : acts_on_carrying mask same (masked_rule mask same).
Proof.
  intros df. unfold masked_rule.
  assert (K : forall x, In x (drop_duplicates same (List.filter mask df)) -> mask x = true).
  { intros x I. apply drop_duplicates_incl, filter_In in I. tauto. }
  assert (N : forall x, In x (List.filter (fun r => negb (mask r)) df) -> mask x = false).
  { intros x I. apply filter_In in I. destruct I as [_ I]. now apply negb_true_iff. }
  destruct (existsb mask df) eqn:E.
  - rewrite !List.filter_app.
    rewrite (filter_all mask _ K), (filter_none mask _ N).
    rewrite (filter_none (fun r => negb (mask r)) (drop_duplicates _ _)),
      (filter_all (fun r => negb (mask r)) (List.filter _ df)).
    + rewrite app_nil_r. cbn. auto.
    + intros x I. rewrite (N x I). reflexivity.
    + intros x I. rewrite (K x I). reflexivity.
  - assert (F : List.filter mask df = []).
    { apply filter_none. now apply existsb_false_iff. }
    rewrite F. cbn. auto.
Qed.

Lemma masked_rule_incl mask same df x : In x (masked_rule mask same df) -> In x df.
Proof.
  unfold masked_rule. destruct (existsb mask df); [|auto].
  rewrite in_app_iff. intros [I|I].
  - apply drop_duplicates_incl, filter_In in I. tauto.
  - apply filter_In in I. tauto.
Qed.

Lemma masked_rule_keeps mask same df r :
  (forall x, same x x = true) ->
  In r df ->
  (forall x, In x df -> mask r = true -> same r x = true -> x = r) ->
  In r (masked_rule mask same df).
Proof.
  intros R I U. unfold masked_rule. destruct (existsb mask df); [|exact I].
  apply in_app_iff. destruct (mask r) eqn:M.
  - left. apply (kept_after_keeps same R []); [intros x []| |].
    + apply filter_In. auto.
    + intros x Ix. apply filter_In in Ix. apply U; tauto.
  - right. apply filter_In. now rewrite M.
Qed.


Lemma same_txnid_account_refl x : same_txnid_account x x = true.
Proof. unfold same_txnid_account. now rewrite !String.eqb_refl. Qed.

Lemma same_reference_refl x : same_reference_date_amount_time x x = true.
Proof.
  unfold same_reference_date_amount_time.
  rewrite !String.eqb_refl, (proj2 (Qeq_bool_iff _ _) (Qeq_refl _)). reflexivity.
Qed.

Lemma same_original_hash_refl x : same_original_hash x x = true.
Proof. apply String.eqb_refl. Qed.

Lemma deduplicate_dataframe_unfold df :
  deduplicate_dataframe df = rule3 (rule2 (rule1 df)).
Proof. destruct df; reflexivity. Qed.

Lemma drop_duplicates_first same (df : list Row) r :
  In r (drop_duplicates same df) <->
  exists i, df !! i = Some r
    /\ forall j r', (j < i)%nat -> df !! j = Some r' -> same r r' = false.
Proof.
  unfold drop_duplicates, duplicated.
  fold (kept_after same [] df). rewrite kept_after_first.
  split; intros (i & L & F); exists i; [tauto|].
  split; [exact L|]. split; [intros x []|exact F].
Qed.

(** C2, as the code has it.  The three rules are applied one after the
    other.  Rule 1 deduplicates the rows with a transaction id and an
    account on that pair, rule 2 the rows with a reference on (reference,
    date, amount, time), and each lets the other rows through as they
    are; rule 3 deduplicates every row of the frame that rule 2 hands on,
    on the content hash.  In each rule a row is kept exactly when no row
    before it, in the frame the rule deduplicates, has its key, and the
    kept rows keep their order: this is said of [drop_duplicates] for
    every key and frame, which the rules 1 and 2 apply to the rows that
    carry their fields, and of rule 3 and of the result in so many words.
    That frame is the ingestion order for rule 1 only: a rule that finds
    rows carrying its fields hands them on before the rows that do
    not. *)
Theorem deduplicate_dataframe_tiers :
  (forall df, deduplicate_dataframe df = rule3 (rule2 (rule1 df)))
  /\ acts_on_carrying mask1 same_txnid_account rule1
  /\ acts_on_carrying mask2 same_reference_date_amount_time rule2
  /\ (forall same (df : list Row) r,
        In r (drop_duplicates same df) <->
        exists i, df !! i = Some r
          /\ forall j r', (j < i)%nat -> df !! j = Some r' -> same r r' = false)
  /\ (forall same (df : list Row), sublist (drop_duplicates same df) df)
  /\ (forall (df : list Row) r,
        In r (rule3 df) <->
        exists i, df !! i = Some r
          /\ forall j r', (j < i)%nat -> df !! j = Some r' ->
               same_original_hash r r' = false)
  /\ (forall df : list Row, sublist (rule3 df) df)
  /\ (forall (df : list Row) r,
        In r (deduplicate_dataframe df) <->
        exists i, rule2 (rule1 df) !! i = Some r
          /\ forall j r', (j < i)%nat -> rule2 (rule1 df) !! j = Some r' ->
               same_original_hash r r' = false)
  /\ (forall df : list Row, sublist (deduplicate_dataframe df) (rule2 (rule1 df))).
Proof.
  split; [exact deduplicate_dataframe_unfold|].
  split; [apply masked_rule_acts|].
  split; [apply masked_rule_acts|].
  split; [exact drop_duplicates_first|].
  split; [intros same df; apply kept_after_sublist|].
  split; [intros df r; apply drop_duplicates_first|].
  split; [intros df; apply kept_after_sublist|].
  split.
  - intros df r. rewrite deduplicate_dataframe_unfold. apply drop_duplicates_first.
  - intros df. rewrite deduplicate_dataframe_unfold. apply kept_after_sublist.
Qed.

(** C2, where the claim fails: the paper line of a check is ingested
    before its online line, and both carry the reference 1042 with the
    same date and amount.  Rule 1 moves the online line, which has a
    transaction id and an account, to the front; rule 2 then keeps it and
    drops the line that was ingested first. *)
Lemma first_ingested_row_dropped :
  let df := [Examples.check_paper; Examples.check_online] in
  mask2 Examples.check_paper = true
  /\ mask2 Examples.check_online = true
  /\ same_reference_date_amount_time Examples.check_online Examples.check_paper = true
  /\ rule1 df = [Examples.check_online; Examples.check_paper]
  /\ deduplicate_dataframe df = [Examples.check_online].
Proof. vm_compute. repeat split; reflexivity. Qed.

(** Two rows match on a key of one of the three rules. *)
Definition hard_match (r x : Row) : bool :=
  (mask1 r && same_txnid_account r x)
  || (mask2 r && same_reference_date_amount_time r x)
  || same_original_hash r x.

Lemma deduplicate_dataframe_incl df x : In x (deduplicate_dataframe df) -> In x df.
Proof.
  rewrite deduplicate_dataframe_unfold. intros I.
  apply drop_duplicates_incl in I.
  now apply masked_rule_incl, masked_rule_incl in I.
Qed.

(** A row that matches no other row of the frame on a key of the three
    rules is in the result. *)
Lemma deduplicate_dataframe_keeps df r :
  In r df ->
  (forall x, In x df -> hard_match r x = true -> x = r) ->
  In r (deduplicate_dataframe df).
Proof.
  intros I U. rewrite deduplicate_dataframe_unfold.
  assert (I1 : In r (rule1 df)).
  { apply masked_rule_keeps; [exact same_txnid_account_refl|exact I|].
    intros x Ix M E. apply U; [exact Ix|]. unfold hard_match. now rewrite M, E. }
  assert (I2 : In r (rule2 (rule1 df))).
  { apply masked_rule_keeps; [exact same_reference_refl|exact I1|].
    intros x Ix M E. apply U; [now apply masked_rule_incl in Ix|].
    unfold hard_match. rewrite M, E. now rewrite orb_true_r. }
  apply (kept_after_keeps _ same_original_hash_refl []); [intros x []|exact I2|].
  intros x Ix E. apply U.
  - now apply masked_rule_incl, masked_rule_incl in Ix.
  - unfold hard_match. rewrite E. now rewrite orb_true_r.
Qed.

Section LooseGroup.
Context `{PyLib}.

(** The group tag reads the date, the description and the amount only. *)
Lemma possible_dup_group_ext (r1 r2 : row_dict) :
  r1 !! "Date" = r2 !! "Date" -> r1 !! "Description" = r2 !! "Description" ->
  r1 !! "Amount" = r2 !! "Amount" ->
  possible_dup_group r1 = possible_dup_group r2.
Proof.
  intros D E A. unfold possible_dup_group.
  now rewrite (get_ext r1 r2 "Date"), (get_ext r1 r2 "Amount"),
    (get_ext r1 r2 "Description").
Qed.

Lemma possible_dup_group_rows (r1 r2 : Row) :
  Date r1 = Date r2 -> Description r1 = Description r2 -> Amount r1 = Amount r2 ->
  possible_dup_group (series_of r1) = possible_dup_group (series_of r2).
Proof.
  intros D E A.
  destruct (series_of_lookup r1) as (A1 & A2 & A3 & _).
  destruct (series_of_lookup r2) as (B1 & B2 & B3 & _).
  apply possible_dup_group_ext; congruence.
Qed.

(** [main] never writes to [duplicate_review]. *)
Lemma main_keeps_duplicate_review path errors df s :
  Db.duplicate_review (snd (main path errors df s)) = Db.duplicate_review s.
Proof.
  unfold main. cbn.
  destruct (prepare_transactions_for_db _) as [ts|]; [|reflexivity].
  destruct (insert_transactions_batch _ _) as [[n s']|] eqn:E; [|reflexivity].
  cbn. unfold insert_transactions_batch in E.
  destruct (filter _ ts); [injection E as _ <-; reflexivity|].
  destruct (decide _); [injection E as _ <-; reflexivity|discriminate].
Qed.

End LooseGroup.

(** C1, as the code has it.  No rule of [deduplicate_dataframe] is keyed
    on the date, the description and the amount: two rows of a batch that
    agree on these three, each of which matches no other row of the batch
    on a key of rules 1 to 3 (transaction id and account, reference with
    date, amount and time, content hash), are both in the result, with
    the same [PossibleDupGroup] tag.  The import only tags them: [main]
    leaves the table of review groups as it found it. *)
Theorem loose_match_rows_survive `{PyLib} (df : list Row) (r1 r2 : Row) :
  In r1 df -> In r2 df ->
  normalized r1 -> normalized r2 ->
  Date r1 = Date r2 -> Description r1 = Description r2 -> Amount r1 = Amount r2 ->
  (forall x, In x df -> hard_match r1 x = true -> x = r1) ->
  (forall x, In x df -> hard_match r2 x = true -> x = r2) ->
  In r1 (deduplicate_dataframe df)
  /\ In r2 (deduplicate_dataframe df)
  /\ PossibleDupGroup r1 = PossibleDupGroup r2
  /\ (forall path errors s,
        Db.duplicate_review (snd (main path errors df s)) = Db.duplicate_review s).
Proof.
  intros I1 I2 [_ N1] [_ N2] D E A U1 U2.
  split; [now apply deduplicate_dataframe_keeps|].
  split; [now apply deduplicate_dataframe_keeps|].
  split.
  - rewrite (possible_dup_group_rows r1 r2 D E A) in N1. congruence.
  - intros. apply main_keeps_duplicate_review.
Qed.

Lemma loose_match_rows_survive_witness :
  let df := [Examples.tap1; Examples.tap2] in
  TxnId Examples.tap1 <> TxnId Examples.tap2
  /\ In Examples.tap1 (deduplicate_dataframe df)
  /\ In Examples.tap2 (deduplicate_dataframe df)
  /\ PossibleDupGroup Examples.tap1 = PossibleDupGroup Examples.tap2
  /\ (forall path errors s,
        Db.duplicate_review (snd (main path errors df s)) = Db.duplicate_review s).
Proof.
  split; [discriminate|].
  apply (loose_match_rows_survive [Examples.tap1; Examples.tap2]
           Examples.tap1 Examples.tap2).
  - now left.
  - right. now left.
  - split; vm_compute; reflexivity.
  - split; vm_compute; reflexivity.
  - vm_compute; reflexivity.
  - vm_compute; reflexivity.
  - vm_compute; reflexivity.
  - intros x [<-|[<-|[]]]; [reflexivity|]. vm_compute; discriminate.
  - intros x [<-|[<-|[]]]; [|reflexivity]. vm_compute; discriminate.
Defined.
Lemma loose_match_row_dropped :
  let df := [Examples.swipe1; Examples.swipe2] in
  normalized Examples.swipe1 /\ normalized Examples.swipe2
  /\ Date Examples.swipe1 = Date Examples.swipe2
  /\ Description Examples.swipe1 = Description Examples.swipe2
  /\ Amount Examples.swipe1 = Amount Examples.swipe2
  /\ TxnId Examples.swipe1 <> TxnId Examples.swipe2
  /\ OriginalHash Examples.swipe1 <> OriginalHash Examples.swipe2
  /\ deduplicate_dataframe df = [Examples.swipe1]
  /\ Db.duplicate_review (snd (main "downloads" 0 df Examples.empty_store)) = [].
Proof.
  cbv zeta.
  split; [split; vm_compute; reflexivity|].
  split; [split; vm_compute; reflexivity|].
  split; [vm_compute; reflexivity|].
  split; [vm_compute; reflexivity|].
  split; [vm_compute; reflexivity|].
  split; [vm_compute; discriminate|].
  split; [vm_compute; discriminate|].
  split; [vm_compute; reflexivity|].
  apply main_keeps_duplicate_review.
Qed.

(** ** The import against the store *)

Section ImportFacts.
Context `{PyLib}.

Lemma existing_row_hashes_spec (s : Db.Store) (hs : list string) (h : string) :
  h ∈ get_existing_row_hashes s hs <->
  In h hs /\ In h (map Db.tx_row_hash (Db.transactions s)).
Proof.
  unfold get_existing_row_hashes. destruct hs as [|h0 hs'] eqn:E.
  - split; [intros I; now apply not_elem_of_empty in I|intros [[] _]].
  - rewrite <- E. rewrite elem_of_list_to_set, list_elem_of_filter, !list_elem_of_In.
    tauto.
Qed.

Lemma add_all_hashes rows ts :
  map Db.tx_row_hash (add_all rows ts)
  = (map Db.tx_row_hash rows ++ map p_row_hash ts)%list.
Proof.
  revert rows. induction ts as [|t rest IH]; intros rows; cbn.
  - now rewrite app_nil_r.
  - rewrite IH, map_app. cbn. now rewrite <- app_assoc.
Qed.

Lemma add_all_length rows ts :
  List.length (add_all rows ts) = (List.length rows + List.length ts)%nat.
Proof.
  revert rows. induction ts as [|t rest IH]; intros rows; cbn; [lia|].
  rewrite IH, length_app. cbn. lia.
Qed.

(** The rows [main] hands to the insert: the prepared rows whose hash the
    store does not hold. *)
Definition new_transactions_of (rows : list Db.Transaction) (ts : list prepared)
    : list prepared :=
  filter (fun t => p_row_hash t ∉ map Db.tx_row_hash rows) ts.

Lemma new_transactions_filter (s : Db.Store) (ts : list prepared) :
  filter (fun t => p_row_hash t ∉ get_existing_row_hashes s (map p_row_hash ts)) ts
  = new_transactions_of (Db.transactions s) ts.
Proof.
  unfold new_transactions_of.
  generalize (map p_row_hash ts) (fun t => in_map p_row_hash ts t).
  intros hs Sub. induction ts as [|t rest IH]; [reflexivity|].
  assert (E : p_row_hash t ∉ get_existing_row_hashes s hs
              <-> p_row_hash t ∉ map Db.tx_row_hash (Db.transactions s)).
  { rewrite existing_row_hashes_spec, list_elem_of_In.
    pose proof (Sub t (or_introl eq_refl)). tauto. }
  rewrite !filter_cons.
  rewrite IH by (intros x I; apply Sub; now right).
  destruct (decide (p_row_hash t ∉ get_existing_row_hashes s hs)) as [A|A],
    (decide (p_row_hash t ∉ map Db.tx_row_hash (Db.transactions s))) as [B|B];
    tauto.
Qed.

Lemma filter_nothing {A} (P : A -> Prop) `{!forall x, Decision (P x)} (l : list A) :
  (forall x, In x l -> ~ P x) -> filter P l = [].
Proof.
  induction l as [|a t IH]; intros N; [reflexivity|].
  rewrite filter_cons_False by (apply N; now left).
  apply IH. intros x I. apply N. now right.
Qed.

(** Once the new rows are stored, none of the prepared rows is new. *)
Lemma nothing_new_after_import rows ts :
  new_transactions_of (add_all rows (new_transactions_of rows ts)) ts = [].
Proof.
  apply filter_nothing. intros t It N. apply N.
  rewrite add_all_hashes, elem_of_app.
  destruct (decide (p_row_hash t ∈ map Db.tx_row_hash rows)) as [I|I]; [now left|].
  right. apply list_elem_of_In, in_map.
  apply list_elem_of_In, list_elem_of_filter. split; [exact I|now apply list_elem_of_In].
Qed.

(** The three ways [main] ends, read off the rows of the store. *)
Lemma main_spec path errors df (s : Db.Store) :
  let rows := Db.transactions s in
  let result := main path errors df s in
  match prepare_transactions_for_db (deduplicate_dataframe df) with
  | None => fst result = Crashed /\ Db.transactions (snd result) = rows
  | Some ts =>
      let new := new_transactions_of rows ts in
      if decide (new = [] \/ unique_row_hash (add_all rows new)) then
        fst result = Completed new (List.length ts - List.length new)
        /\ Db.transactions (snd result) = add_all rows new
      else
        fst result = InsertFailed new /\ Db.transactions (snd result) = rows
  end.
Proof.
  unfold main. cbn zeta.
  destruct (start_operation s _ _) as [log_id s0] eqn:S.
  assert (R : Db.transactions s0 = Db.transactions s).
  { unfold start_operation in S. injection S as _ <-. reflexivity. }
  destruct (prepare_transactions_for_db _) as [ts|]; [|now split].
  rewrite new_transactions_filter, R.
  unfold insert_transactions_batch. rewrite R.
  destruct (new_transactions_of (Db.transactions s) ts) as [|t new] eqn:N.
  - rewrite decide_True by now left. cbn. now rewrite R.
  - destruct (decide (unique_row_hash _)) as [U|U].
    + rewrite decide_True by now right. now split.
    + rewrite decide_False by (intros [?|?]; [discriminate|contradiction]).
      cbn. now rewrite R.
Qed.

End ImportFacts.

(** C3.  Importing a batch a second time, against the store the first
    import left, stores nothing new: the rows of [transactions] are those
    left by the first run.  When the first run completed, every prepared
    row finds its [row_hash] in the existing-hash lookup of the second
    run, which therefore inserts no row; when the first run stopped
    without storing the batch, so does the second. *)
Theorem import_idempotent `{PyLib} (path : string) (errors : Z) (df : list Row)
    (s : Db.Store) :
  let first := main path errors df s in
  let second := main path errors df (snd first) in
  Db.transactions (snd second) = Db.transactions (snd first)
  /\ List.length (Db.transactions (snd second))
     = List.length (Db.transactions (snd first))
  /\ match fst first with
     | Completed _ _ =>
         (exists skipped, fst second = Completed [] skipped)
         /\ forall ts t,
              prepare_transactions_for_db (deduplicate_dataframe df) = Some ts ->
              In t ts ->
              p_row_hash t ∈ get_existing_row_hashes (snd first) (map p_row_hash ts)
     | InsertFailed new => fst second = InsertFailed new
     | Crashed => fst second = Crashed
     end.
Proof.
  cbv zeta.
  pose proof (main_spec path errors df s) as M1. cbv zeta in M1.
  destruct (main path errors df s) as [o1 s1]. cbn [fst snd] in *.
  pose proof (main_spec path errors df s1) as M2. cbv zeta in M2.
  destruct (main path errors df s1) as [o2 s2]. cbn [fst snd] in *.
  destruct (prepare_transactions_for_db (deduplicate_dataframe df)) as [ts|].
  2:{ destruct M1 as [-> T1], M2 as [-> T2]. rewrite T2. auto. }
  destruct (decide (new_transactions_of (Db.transactions s) ts = [] \/ _)) as [D|D].
  - destruct M1 as [-> T1]. rewrite T1 in M2.
    rewrite nothing_new_after_import in M2.
    rewrite decide_True in M2 by now left.
    destruct M2 as [-> T2]. cbn in T2. rewrite T2, <- T1.
    split; [reflexivity|]. split; [reflexivity|]. split; [eauto|].
    intros ts' t [= <-] It. apply existing_row_hashes_spec.
    split; [now apply in_map|]. rewrite T1.
    apply list_elem_of_In.
    destruct (decide (p_row_hash t ∈
                map Db.tx_row_hash
                  (add_all (Db.transactions s)
                     (new_transactions_of (Db.transactions s) ts)))) as [I|I];
      [exact I|].
    exfalso. eapply (filter_nil_not_elem_of _ _ t (nothing_new_after_import _ ts) I).
    now apply list_elem_of_In.
  - destruct M1 as [-> T1]. rewrite T1 in M2.
    rewrite decide_False in M2 by exact D.
    destruct M2 as [-> T2]. rewrite T2, T1. auto.
Qed.

Section RowHash.
Context `{PyLib}.

Lemma prepare_row_hash (r : Row) (t : prepared) :
  prepare_row r = Some t ->
  p_row_hash t = stable_rowhash (to_date (Date r)) (Description r) (Amount r).
Proof.
  unfold prepare_row. destruct (balance_or_none _); [|discriminate].
  now intros [= <-].
Qed.

Lemma prepare_app (l1 l2 : list Row) (ts : list prepared) :
  prepare_transactions_for_db (l1 ++ l2) = Some ts ->
  exists ts1 ts2,
    ts = (ts1 ++ ts2)%list
    /\ prepare_transactions_for_db l1 = Some ts1
    /\ prepare_transactions_for_db l2 = Some ts2.
Proof.
  revert ts. induction l1 as [|r l1 IH]; intros ts E.
  - exists [], ts. repeat split; try reflexivity; exact E.
  - cbn in E. destruct (prepare_row r) as [t|] eqn:Er; [|discriminate].
    destruct (prepare_transactions_for_db (l1 ++ l2)) as [ts'|]; [|discriminate].
    injection E as <-. destruct (IH ts' eq_refl) as (ts1 & ts2 & -> & E1 & E2).
    exists (t :: ts1), ts2. cbn. rewrite Er, E1. repeat split; try reflexivity; exact E2.
Qed.

Lemma prepare_cons (r : Row) (l : list Row) (ts : list prepared) :
  prepare_transactions_for_db (r :: l) = Some ts ->
  exists t ts', ts = t :: ts' /\ prepare_row r = Some t
                /\ prepare_transactions_for_db l = Some ts'.
Proof.
  cbn. destruct (prepare_row r) as [t|]; [|discriminate].
  destruct (prepare_transactions_for_db l) as [ts'|]; [|discriminate].
  intros [= <-]. eauto.
Qed.

(** Two rows of the prepared batch with one hash that the store does not
    hold: the batch cannot be added under [unique_row_hash]. *)
Lemma colliding_batch_not_unique rows ts1 t1 ts2 t2 ts3 :
  p_row_hash t1 = p_row_hash t2 ->
  p_row_hash t1 ∉ map Db.tx_row_hash rows ->
  let new := new_transactions_of rows (ts1 ++ t1 :: ts2 ++ t2 :: ts3) in
  new <> [] /\ ~ unique_row_hash (add_all rows new).
Proof.
  intros E N. cbv zeta. unfold new_transactions_of.
  rewrite filter_app, filter_cons_True, filter_app, filter_cons_True
    by (rewrite <- ?E; exact N).
  split; [now destruct (filter _ ts1)|].
  unfold unique_row_hash. rewrite add_all_hashes, !map_app. cbn. rewrite map_app. cbn.
  rewrite NoDup_app. intros (_ & _ & U).
  apply NoDup_app in U. destruct U as (_ & _ & U).
  apply NoDup_cons in U. destruct U as [U _].
  apply U. rewrite elem_of_app. right. rewrite E. left.
Qed.

End RowHash.

(** C10.  The hash the store is keyed on reads less than the content
    hash.  (1) [stable_rowhash] is computed from the date, the
    description and the amount: two rows that agree on these get the same
    [row_hash], whatever their transaction id, reference, time, account
    or balance.  (2) Hence a row of the batch whose three fields are those
    of a stored transaction is not among the rows [main] inserts, and no
    review group is written for it.  (3) And when two rows of the
    deduplicated batch agree on the three fields, and the store does not
    hold their hash yet, the insert violates [unique_row_hash]: [main]
    ends with the failed insert and stores none of the batch. *)
Theorem row_hash_is_coarse `{PyLib} :
  (forall (r1 r2 : Row) (t1 t2 : prepared),
     Date r1 = Date r2 -> Description r1 = Description r2 -> Amount r1 = Amount r2 ->
     prepare_row r1 = Some t1 -> prepare_row r2 = Some t2 ->
     p_row_hash t1 = p_row_hash t2)
  /\ (forall path errors (df : list Row) (s : Db.Store) (r : Row)
             (stored : Db.Transaction),
        In stored (Db.transactions s) ->
        Db.tx_row_hash stored
        = stable_rowhash (Db.tx_date stored) (Db.tx_description stored)
            (Db.tx_amount stored) ->
        to_date (Date r) = Db.tx_date stored ->
        Description r = Db.tx_description stored ->
        Amount r = Db.tx_amount stored ->
        (forall new t,
           fst (main path errors df s) = InsertFailed new
           \/ (exists k, fst (main path errors df s) = Completed new k) ->
           In t new ->
           p_row_hash t <> stable_rowhash (to_date (Date r)) (Description r) (Amount r))
        /\ Db.duplicate_review (snd (main path errors df s)) = Db.duplicate_review s)
  /\ (forall path errors (df : list Row) (s : Db.Store) (r1 r2 : Row) l1 l2 l3,
        deduplicate_dataframe df = (l1 ++ r1 :: l2 ++ r2 :: l3)%list ->
        Date r1 = Date r2 -> Description r1 = Description r2 ->
        Amount r1 = Amount r2 ->
        is_Some (prepare_transactions_for_db (deduplicate_dataframe df)) ->
        ~ In (stable_rowhash (to_date (Date r1)) (Description r1) (Amount r1))
             (map Db.tx_row_hash (Db.transactions s)) ->
        (exists new, fst (main path errors df s) = InsertFailed new)
        /\ Db.transactions (snd (main path errors df s)) = Db.transactions s).
Proof.
  split; [|split].
  - intros r1 r2 t1 t2 D E A P1 P2.
    rewrite (prepare_row_hash r1 t1 P1), (prepare_row_hash r2 t2 P2). congruence.
  - intros path errors df s r stored I Hs D E A.
    split; [|apply main_keeps_duplicate_review].
    intros new t O It.
    pose proof (main_spec path errors df s) as M. cbv zeta in M.
    destruct (main path errors df s) as [o s']. cbn [fst snd] in *.
    assert (N : new = new_transactions_of (Db.transactions s)
                        (default [] (prepare_transactions_for_db
                                       (deduplicate_dataframe df)))).
    { destruct (prepare_transactions_for_db _) as [ts|].
      - destruct (decide _); destruct M as [-> _];
          destruct O as [O|[k O]]; try discriminate; inversion O; reflexivity.
      - destruct M as [-> _]. destruct O as [O|[k O]]; discriminate. }
    subst new. apply list_elem_of_In, list_elem_of_filter in It.
    destruct It as [It _]. intros Eh. apply It.
    rewrite Eh, D, E, A, <- Hs. apply list_elem_of_In. now apply in_map.
  - intros path errors df s r1 r2 l1 l2 l3 Ed D E A [ts P] N.
    pose proof (main_spec path errors df s) as M. cbv zeta in M.
    rewrite P in M. rewrite Ed in P.
    apply prepare_app in P. destruct P as (ts1 & tsa & -> & _ & P).
    apply prepare_cons in P. destruct P as (t1 & tsb & -> & P1 & P).
    apply prepare_app in P. destruct P as (ts2 & tsc & -> & _ & P).
    apply prepare_cons in P. destruct P as (t2 & ts3 & -> & P2 & _).
    destruct (colliding_batch_not_unique (Db.transactions s) ts1 t1 ts2 t2 ts3)
      as [Ne Nu].
    + rewrite (prepare_row_hash r1 t1 P1), (prepare_row_hash r2 t2 P2). congruence.
    + rewrite (prepare_row_hash r1 t1 P1), list_elem_of_In. exact N.
    + rewrite decide_False in M by tauto. destruct M as [O T]. eauto.
Qed.

Lemma row_hash_is_coarse_witness :
  (TxnId Examples.tap1 <> TxnId Examples.tap2
   /\ Balance Examples.tap1 <> Balance Examples.tap2
   /\ option_map p_row_hash (prepare_row Examples.tap1)
      = option_map p_row_hash (prepare_row Examples.tap2))
  /\ (OriginalHash Examples.coffee_later <> OriginalHash Examples.coffee
      /\ fst (main "downloads" 0 [Examples.coffee_later] Examples.store_with_coffee)
         = Completed [] 1
      /\ (forall new t,
            fst (main "downloads" 0 [Examples.coffee_later] Examples.store_with_coffee)
            = InsertFailed new
            \/ (exists k,
                  fst (main "downloads" 0 [Examples.coffee_later]
                         Examples.store_with_coffee) = Completed new k) ->
            In t new ->
            p_row_hash t
            <> stable_rowhash (to_date (Date Examples.coffee_later))
                 (Description Examples.coffee_later) (Amount Examples.coffee_later))
      /\ Db.duplicate_review
           (snd (main "downloads" 0 [Examples.coffee_later] Examples.store_with_coffee))
         = Db.duplicate_review Examples.store_with_coffee)
  /\ ((exists new,
         fst (main "downloads" 0 [Examples.tap1; Examples.tap2] Examples.empty_store)
         = InsertFailed new)
      /\ Db.transactions
           (snd (main "downloads" 0 [Examples.tap1; Examples.tap2] Examples.empty_store))
         = Db.transactions Examples.empty_store).
Proof.
  destruct (row_hash_is_coarse (H := Sample.py)) as (A & B & C).
  split; [|split].
  - split; [vm_compute; discriminate|]. split; [vm_compute; discriminate|].
    destruct (prepare_row Examples.tap1) as [t1|] eqn:P1;
      destruct (prepare_row Examples.tap2) as [t2|] eqn:P2;
      try (vm_compute in P1, P2; discriminate).
    cbn. f_equal.
    apply (A Examples.tap1 Examples.tap2 t1 t2); try assumption;
      vm_compute; reflexivity.
  - split; [vm_compute; discriminate|]. split; [vm_compute; reflexivity|].
    destruct (Db.transactions Examples.store_with_coffee) as [|stored rest] eqn:T;
      [vm_compute in T; discriminate|].
    assert (I : In stored (stored :: rest)) by now left.
    rewrite <- T in I. vm_compute in T. injection T as <- <-.
    apply (B "downloads" 0 [Examples.coffee_later] Examples.store_with_coffee
             Examples.coffee_later _ I); vm_compute; reflexivity.
  - apply (C "downloads" 0 [Examples.tap1; Examples.tap2] Examples.empty_store
             Examples.tap1 Examples.tap2 [] [] []).
    + vm_compute; reflexivity.
    + vm_compute; reflexivity.
    + vm_compute; reflexivity.
    + vm_compute; reflexivity.
    + vm_compute. eauto.
    + intros [].
Defined.

(** ** What a call of [execute_query] leaves behind *)

Import Exec ManagementTools.

Section ExecFacts.

(** A call either raises and leaves the store, or returns the rows of a
    result set and commits what the statement did. *)
Lemma execute_query_inv {A} (q : statement A) w r w' :
  execute_query q w = (r, w') ->
  faults w' = tl (faults w)
  /\ ((exists msg, r = Raised msg /\ store w' = store w)
      \/ (exists rows, r = Ok rows /\ q (store w) = (Rows rows, store w'))).
Proof.
  unfold execute_query. destruct (faults w) as [|[] rest]; cbn;
    try destruct (q (store w)) as [[rows| |msg] s]; intros [= <- <-]; cbn;
    (split; [reflexivity|]); eauto 6.
Qed.

(** A statement that leaves no result set to fetch, whatever the store:
    it has none, or the server refuses it. *)
Definition fruitless {A} (q : statement A) : Prop :=
  forall s, match fst (q s) with Rows _ => False | _ => True end.

(** A world after calls that did not commit: the store is the same, and
    some of the faults are consumed. *)
Definition settled (w w' : World) : Prop :=
  store w' = store w /\ exists n, faults w' = drop n (faults w).

Lemma settled_refl w : settled w w.
Proof. split; [reflexivity|]. now exists O. Qed.

Lemma settled_trans w1 w2 w3 : settled w1 w2 -> settled w2 w3 -> settled w1 w3.
Proof.
  intros [S1 [n F1]] [S2 [m F2]]. split; [congruence|].
  exists (n + m)%nat. rewrite F2, F1. apply drop_drop.
Qed.

Lemma settled_step w w' :
  store w' = store w -> faults w' = tl (faults w) -> settled w w'.
Proof.
  intros S F. split; [exact S|]. exists 1%nat. rewrite F. now destruct (faults w).
Qed.


(** [fetchall] raises after a statement without a result set, and the
    connection is rolled back. *)
Lemma execute_query_fruitless {A} (q : statement A) w r w' :
  fruitless q ->
  execute_query q w = (r, w') ->
  (exists msg, r = Raised msg) /\ settled w w'.
Proof.
  intros F E. apply execute_query_inv in E.
  destruct E as [Fa [(msg & -> & S)|(rows & -> & Q)]].
  - split; [eauto|]. now apply settled_step.
  - specialize (F (store w)). rewrite Q in F. destruct F.
Qed.

Lemma fruitless_undefined_column {A} (column relation : string) :
  fruitless (@undefined_column A column relation).
Proof. intros s. exact I. Qed.


Lemma fruitless_insert_review now group id score reason :
  fruitless (insert_review now group id score reason).
Proof. intros s. exact I. Qed.

Lemma fruitless_mark_reviewed now act text group :
  fruitless (mark_reviewed now act text group).
Proof. intros s. exact I. Qed.

Lemma fruitless_delete_row id : fruitless (DeleteTransaction.delete_row id).
Proof.
  intros s. unfold DeleteTransaction.delete_row.
  destruct (_ && _); exact I.
Qed.

(** A read commits nothing either. *)
Lemma execute_query_select_group group w r w' :
  execute_query (select_group group) w = (r, w') ->
  settled w w'
  /\ ((exists msg, r = Raised msg) \/ r = Ok (group_rows group (store w))).
Proof.
  intros E. apply execute_query_inv in E.
  destruct E as [Fa [(msg & -> & S)|(rows & -> & Q)]].
  - split; [now apply settled_step|]. left. eauto.
  - unfold select_group in Q. injection Q as <- S.
    split; [now apply settled_step|]. now right.
Qed.

End ExecFacts.

(** A loop of calls that commit nothing commits nothing. *)
Lemma for_each_settled {A} (xs : list A) (body : A -> M unit) :
  (forall x w r w', body x w = (r, w') -> settled w w') ->
  forall w r w', for_each xs body w = (r, w') -> settled w w'.
Proof.
  intros B. induction xs as [|x xs IH]; intros w r w' E.
  - injection E as _ <-. apply settled_refl.
  - cbn in E. unfold Exec.bind in E.
    destruct (body x w) as [[u|msg] w1] eqn:E1.
    + eapply settled_trans; [eapply B; exact E1|eapply IH; exact E].
    + injection E as _ <-. eapply B; exact E1.
Qed.

(** ** Review of a duplicate group *)

(** The replies that turn a call down before anything is written. *)
Definition rejection (reply : review_reply) : Prop :=
  match reply with
  | NoPendingReview _ | TooFewTransactions _ _ | InvalidAction _
  | KeepTransactionIdRequired | NotInGroup _ _ _ => True
  | Reviewed _ _ _ _ | ErrorReviewing _ => False
  end.

Section ReviewFacts.
Variable now : Z.
Variable p : ReviewDuplicateParams.

(** The rows of [duplicate_review] as the [UPDATE] of the review leaves
    them. *)
Definition marked_rows (s : Db.Store) : list Db.DuplicateReview :=
  Db.duplicate_review
    (snd (mark_reviewed now (action p)
            (if truthy (notes p)
             then "User decision: " ++ default "" (notes p)
             else "Action: " ++ action p)
            (group_id p) s)).

(** The [UPDATE] that marks the group is the first statement of
    [finish_review], and it has no result set: the call raises. *)
Lemma finish_review_raises gts res w r w' :
  finish_review now p gts res w = (r, w') ->
  (exists msg, r = Raised msg) /\ settled w w'.
Proof.
  unfold finish_review, mbind, exec_bind, Exec.bind.
  match goal with
  | |- context [execute_query ?q w] =>
      destruct (execute_query q w) as [[u|msg] w1] eqn:E;
      apply (execute_query_fruitless _ _ _ _ (fruitless_mark_reviewed _ _ _ _)) in E
  end.
  - destruct E as [[msg [=]] _].
  - intros [= <- <-]. split; [eauto|tauto].
Qed.

(** The soft deletes of [delete_duplicate]: each is refused. *)
Lemma soft_deletes_settled (keep : Z) gts w r w' :
  for_each gts
    (fun tx =>
       if negb (transaction_id tx =? keep) then
         execute_query
           (soft_delete "duplicate_review"
              ("Duplicate of transaction " ++ Str.of_Z keep) (transaction_id tx))
       else mret tt) w = (r, w') ->
  settled w w'.
Proof.
  apply for_each_settled. clear. intros tx w r w'.
  destruct (negb _).
  - intros E.
    apply (execute_query_fruitless _ _ _ _ (fruitless_undefined_column _ _)) in E.
    tauto.
  - intros [= _ <-]. apply settled_refl.
Qed.

(** How the body of [review_duplicate] ends: the call is turned down, or
    it raises; in both cases nothing is committed. *)
Lemma review_body_outcome w :
  exists r w',
    review_duplicate_body now p w = (r, w')
    /\ settled w w'
    /\ ((exists reply, r = Ok reply /\ rejection reply) \/ exists msg, r = Raised msg).
Proof.
  unfold review_duplicate_body, mbind, exec_bind, Exec.bind.
  destruct (execute_query (select_group (group_id p)) w) as [r0 w1] eqn:Q.
  apply execute_query_select_group in Q. destruct Q as [W1 [[msg ->]| ->]].
  { do 2 eexists. split; [reflexivity|]. split; [exact W1|]. right. eauto. }
  assert (Turned : forall reply, rejection reply ->
            exists r w',
              (Ok reply, w1) = (r, w') /\ settled w w'
              /\ ((exists reply, r = Ok reply /\ rejection reply)
                  \/ exists msg, r = Raised msg)).
  { intros reply R. do 2 eexists. split; [reflexivity|]. split; [exact W1|].
    left. eauto. }
  assert (Finish : forall res w2, settled w w2 ->
            exists r w',
              finish_review now p (group_rows (group_id p) (store w)) res w2 = (r, w')
              /\ settled w w'
              /\ ((exists reply, r = Ok reply /\ rejection reply)
                  \/ exists msg, r = Raised msg)).
  { intros res w2 W2.
    destruct (finish_review now p _ res w2) as [r w'] eqn:F.
    apply finish_review_raises in F. destruct F as [[msg ->] W'].
    do 2 eexists. split; [reflexivity|].
    split; [eapply settled_trans; eassumption|]. right. eauto. }
  destruct (group_rows (group_id p) (store w)) as [|g gts] eqn:G.
  { now apply Turned. }
  destruct (_ <? _)%nat; [now apply Turned|].
  destruct (negb (in_strings _ _)); [now apply Turned|].
  destruct (String.eqb (action p) "keep_both"); [now apply Finish|].
  destruct (String.eqb (action p) "delete_duplicate").
  2:{ destruct (String.eqb (action p) "merge"); now apply Finish. }
  destruct (keep_transaction_id p) as [keep|]; [|now apply Turned].
  destruct (keep =? 0); [now apply Turned|].
  cbv zeta. destruct (negb (in_ids _ _)); [now apply Turned|].
  match goal with
  | |- context [for_each ?xs ?body w1] =>
      destruct (for_each xs body w1) as [[u|msg] w2] eqn:D;
      apply soft_deletes_settled in D
  end.
  - apply Finish. eapply settled_trans; eassumption.
  - do 2 eexists. split; [reflexivity|].
    split; [eapply settled_trans; eassumption|]. right. eauto.
Qed.

(** [review_duplicate] never commits: it replies that the call is turned
    down, or that an error occurred, and the store is as it was. *)
Lemma review_outcome w :
  exists reply w',
    review_duplicate now p w = (Ok reply, w')
    /\ settled w w'
    /\ (rejection reply \/ exists msg, reply = ErrorReviewing msg).
Proof.
  unfold review_duplicate, try_except.
  destruct (review_body_outcome w) as (r & w' & -> & W & [(reply & -> & R)|(msg & ->)]).
  - exists reply, w'. auto.
  - exists (ErrorReviewing msg), w'. split; [reflexivity|]. split; [exact W|].
    right. eauto.
Qed.

End ReviewFacts.





(** X3.  When [review_duplicate] replies with an error, no audit record
    has been written: [processing_log] is as it was.  The rows of the
    group are either untouched or marked reviewed. *)
Theorem error_reply_logs_nothing (now : Z) (p : ReviewDuplicateParams)
    (w w' : World) (msg : string) :
  review_duplicate now p w = (Ok (ErrorReviewing msg), w') ->
  Db.processing_log (store w') = Db.processing_log (store w)
  /\ (Db.duplicate_review (store w') = Db.duplicate_review (store w)
      \/ Db.duplicate_review (store w') = marked_rows now p (store w)).
Proof.
  intros E. destruct (review_outcome now p w) as (reply' & w'' & E' & [S _] & _).
  assert (S' : store w' = store w) by congruence.
  rewrite S'. auto.
Qed.

Lemma error_reply_logs_nothing_witness :
  let p := Examples.review_params "DUP_0001" "keep_both" None in
  let w := {| store := Examples.staged_ledger; faults := [false; true] |} in
  exists msg w',
    review_duplicate 2000 p w = (Ok (ErrorReviewing msg), w')
    /\ Db.processing_log (store w') = Db.processing_log (store w)
    /\ (Db.duplicate_review (store w') = Db.duplicate_review (store w)
        \/ Db.duplicate_review (store w') = marked_rows 2000 p (store w)).
Proof.
  cbv zeta.
  destruct (review_duplicate 2000 (Examples.review_params "DUP_0001" "keep_both" None)
              {| store := Examples.staged_ledger; faults := [false; true] |})
    as [r w'] eqn:R.
  assert (E : exists msg, r = Ok (ErrorReviewing msg)).
  { apply (f_equal fst) in R. vm_compute in R. subst r. eauto. }
  destruct E as (msg & ->). exists msg, w'. split; [reflexivity|].
  exact (error_reply_logs_nothing _ _ _ _ _ R).
Defined.

(** ** A decision on a pending group *)



Lemma in_ids_In x l : in_ids x l = true <-> In x l.
Proof.
  unfold in_ids. rewrite existsb_exists. split.
  - intros (y & I & E). apply Z.eqb_eq in E. now subst.
  - intros I. exists x. split; [exact I|apply Z.eqb_refl].
Qed.

(** C6, where the code departs from it.  [delete_duplicate] on a pending
    group of two or more, with the key of a member to keep: the call
    replies with an error and the store is as it was.  No member is
    soft-deleted ([transactions] has no column to mark a deletion, and
    the first [UPDATE] is refused), and the group is not marked
    reviewed. *)
Theorem delete_duplicate_soft_deletes_nothing (now : Z) (p : ReviewDuplicateParams)
    (w : World) (keep : Z) :
  action p = "delete_duplicate" ->
  keep_transaction_id p = Some keep ->
  keep <> 0 ->
  (2 <= List.length (group_rows (group_id p) (store w)))%nat ->
  In keep (map transaction_id (group_rows (group_id p) (store w))) ->
  exists msg w',
    review_duplicate now p w = (Ok (ErrorReviewing msg), w')
    /\ store w' = store w.
Proof.
  intros A K N Len Mem.
  unfold review_duplicate, try_except, review_duplicate_body, mbind, exec_bind, Exec.bind.
  destruct (execute_query (select_group (group_id p)) w) as [r0 w1] eqn:Q.
  apply execute_query_select_group in Q. destruct Q as [W1 [[msg ->]| ->]].
  { do 2 eexists. split; [reflexivity|]. apply W1. }
  destruct (group_rows (group_id p) (store w)) as [|g gts] eqn:G.
  { cbn in Len. lia. }
  apply Nat.ltb_ge in Len. rewrite Len, A, K. cbn [valid_actions in_strings existsb].
  replace ("delete_duplicate" =? "keep_both")%string with false by reflexivity.
  replace ("delete_duplicate" =? "delete_duplicate")%string with true by reflexivity.
  cbn [orb negb].
  apply Z.eqb_neq in N. rewrite N. cbv zeta.
  apply in_ids_In in Mem. rewrite Mem. cbn [negb].
  match goal with
  | |- context [for_each ?xs ?body w1] =>
      destruct (for_each xs body w1) as [[u|msg] w2] eqn:D;
      apply soft_deletes_settled in D
  end.
  - match goal with
    | |- context [finish_review ?a ?b ?c ?d w2] =>
        destruct (finish_review a b c d w2) as [r w3] eqn:F;
        apply finish_review_raises in F; destruct F as [[msg ->] W3]
    end.
    do 2 eexists. split; [reflexivity|].
    apply (settled_trans _ _ _ W1 (settled_trans _ _ _ D W3)).
  - do 2 eexists. split; [reflexivity|]. apply (settled_trans _ _ _ W1 D).
Qed.

Lemma delete_duplicate_soft_deletes_nothing_witness :
  let p := Examples.review_params "DUP_0001" "delete_duplicate" (Some 1) in
  let w := reliable Examples.staged_ledger in
  map transaction_id (group_rows "DUP_0001" Examples.staged_ledger) = [1; 2]
  /\ exists msg w',
       review_duplicate 2000 p w = (Ok (ErrorReviewing msg), w')
       /\ store w' = store w.
Proof.
  cbv zeta. split; [vm_compute; reflexivity|].
  apply (delete_duplicate_soft_deletes_nothing 2000
           (Examples.review_params "DUP_0001" "delete_duplicate" (Some 1))
           (reliable Examples.staged_ledger) 1).
  - reflexivity.
  - reflexivity.
  - lia.
  - vm_compute. lia.
  - vm_compute. tauto.
Defined.


(** ** Staging *)






(** ** Deleting a transaction *)

(** The first statement of [delete_transaction] selects on the column
    [deleted_at], which [transactions] does not have. *)
Lemma delete_outcome (now : Z) (p : DeleteTransaction.DeleteTransactionParams)
    (w : World) :
  exists msg w',
    DeleteTransaction.delete_transaction now p w
    = (Ok (DeleteTransaction.ErrorDeleting msg), w')
    /\ settled w w'.
Proof.
  unfold DeleteTransaction.delete_transaction, try_except,
    DeleteTransaction.delete_transaction_body, mbind, exec_bind, Exec.bind.
  destruct (execute_query (DeleteTransaction.select_live
                             (DeleteTransaction.transaction_id p)) w)
    as [[txs|msg] w1] eqn:E;
    apply (execute_query_fruitless _ _ _ _ (fruitless_undefined_column _ _)) in E;
    destruct E as [[m Em] W].
  - discriminate.
  - eauto.
Qed.

(** X17.  [delete_transaction] deletes nothing, soft or for good.
    Whatever the store, the parameters and the failures of the
    connection, the call does not report a deletion (it replies that the
    transaction was not found, or with an error), and the three tables
    are as they were. *)
Theorem delete_transaction_deletes_nothing (now : Z)
    (p : DeleteTransaction.DeleteTransactionParams) (w : World) :
  exists reply w',
    DeleteTransaction.delete_transaction now p w = (Ok reply, w')
    /\ store w' = store w
    /\ (forall id permanently tx, reply <> DeleteTransaction.Deleted id permanently tx)
    /\ (reply = DeleteTransaction.NotFound (DeleteTransaction.transaction_id p)
        \/ exists msg, reply = DeleteTransaction.ErrorDeleting msg).
Proof.
  destruct (delete_outcome now p w) as (msg & w' & E & [S _]).
  exists (DeleteTransaction.ErrorDeleting msg), w'.
  split; [exact E|]. split; [exact S|]. split; [discriminate|]. right. eauto.
Qed.



(** ** What [deduplicate_dataframe] returns *)

Section Survivors.

Lemma same_txnid_account_sym a b : same_txnid_account a b = same_txnid_account b a.
Proof.
  unfold same_txnid_account.
  now rewrite (String.eqb_sym (TxnId a)), (String.eqb_sym (Account a)).
Qed.

Lemma Qeq_bool_sym (x y : Q) : Qeq_bool x y = Qeq_bool y x.
Proof.
  destruct (Qeq_bool y x) eqn:E.
  - apply Qeq_bool_iff. apply Qeq_bool_iff in E. now symmetry.
  - destruct (Qeq_bool x y) eqn:F; [|reflexivity].
    apply Qeq_bool_iff in F. symmetry in F. apply Qeq_bool_iff in F. congruence.
Qed.

Lemma same_reference_sym a b :
  same_reference_date_amount_time a b = same_reference_date_amount_time b a.
Proof.
  unfold same_reference_date_amount_time.
  now rewrite (String.eqb_sym (Reference a)), (String.eqb_sym (Date a)),
    (String.eqb_sym (Time a)), (Qeq_bool_sym (Amount a)).
Qed.

Lemma same_original_hash_sym a b : same_original_hash a b = same_original_hash b a.
Proof. apply String.eqb_sym. Qed.

(** Rows with the key of rule 1, or of rule 2, carry its fields alike. *)
Lemma same_txnid_account_mask a b : same_txnid_account a b = true -> mask1 b = mask1 a.
Proof.
  unfold same_txnid_account, mask1. intros E. apply andb_true_iff in E.
  destruct E as [T A]. apply String.eqb_eq in T, A. now rewrite T, A.
Qed.

Lemma same_reference_mask a b :
  same_reference_date_amount_time a b = true -> mask2 b = mask2 a.
Proof.
  unfold same_reference_date_amount_time, mask2. intros E.
  apply andb_true_iff in E. destruct E as [E _].
  apply andb_true_iff in E. destruct E as [E _].
  apply andb_true_iff in E. destruct E as [E _].
  apply String.eqb_eq in E. now rewrite E.
Qed.

Variable same : Row -> Row -> bool.
Hypothesis same_sym : forall a b, same a b = same b a.

(** Two different rows that [drop_duplicates] keeps differ on the key. *)
Lemma kept_after_distinct seen l a b :
  In a (kept_after same seen l) -> In b (kept_after same seen l) -> a <> b ->
  same a b = false.
Proof.
  intros Ia Ib N. apply kept_after_first in Ia, Ib.
  destruct Ia as (i & Li & _ & Fi), Ib as (j & Lj & _ & Fj).
  destruct (Nat.lt_trichotomy i j) as [Lt|[E|Gt]].
  - rewrite same_sym. exact (Fj i a Lt Li).
  - subst j. congruence.
  - exact (Fi j b Gt Lj).
Qed.

Variable mask : Row -> bool.
Hypothesis same_mask : forall a b, same a b = true -> mask b = mask a.

Lemma masked_rule_distinct df a b :
  In a (masked_rule mask same df) -> In b (masked_rule mask same df) -> a <> b ->
  mask a && same a b = false.
Proof.
  intros Ia Ib N. destruct (mask a) eqn:Ma; [|reflexivity]. cbn [andb].
  destruct (same a b) eqn:E; [|reflexivity]. exfalso.
  pose proof (same_mask a b E) as Mb. rewrite Ma in Mb.
  unfold masked_rule in Ia, Ib. destruct (existsb mask df) eqn:X.
  - apply in_app_or in Ia, Ib.
    assert (Ka : In a (drop_duplicates same (List.filter mask df))).
    { destruct Ia as [Ia|Ia]; [exact Ia|]. apply filter_In in Ia. rewrite Ma in Ia.
      destruct Ia; discriminate. }
    assert (Kb : In b (drop_duplicates same (List.filter mask df))).
    { destruct Ib as [Ib|Ib]; [exact Ib|]. apply filter_In in Ib. rewrite Mb in Ib.
      destruct Ib; discriminate. }
    pose proof (kept_after_distinct [] _ a b Ka Kb N). congruence.
  - rewrite (proj1 (existsb_false_iff mask df) X a Ia) in Ma. discriminate.
Qed.

End Survivors.

Lemma kept_after_hashes seen l :
  NoDup (map OriginalHash (kept_after same_original_hash seen l))
  /\ forall x, In x (kept_after same_original_hash seen l) ->
       ~ In (OriginalHash x) (map OriginalHash seen).
Proof.
  revert seen. induction l as [|r t IH]; intros seen.
  - split; [constructor|intros x []].
  - rewrite kept_after_cons. destruct (IH (r :: seen)) as [D F].
    assert (F' : forall x, In x (kept_after same_original_hash (r :: seen) t) ->
                   ~ In (OriginalHash x) (map OriginalHash seen)).
    { intros x Ix I. apply (F x Ix). now right. }
    destruct (existsb (same_original_hash r) seen) eqn:E; [now split|].
    split.
    + cbn [map]. constructor; [|exact D]. intros I. apply list_elem_of_In, in_map_iff in I.
      destruct I as (x & Hx & Ix). apply (F x Ix). left. now symmetry.
    + intros x [<-|Ix]; [|now apply F'].
      intros I. apply in_map_iff in I. destruct I as (y & Hy & Iy).
      assert (String.eqb (OriginalHash r) (OriginalHash y) = true)
        by (apply String.eqb_eq; now symmetry).
      pose proof (proj1 (existsb_false_iff (same_original_hash r) seen) E y Iy) as Hf.
      unfold same_original_hash in Hf. congruence.
Qed.

Lemma drop_duplicates_nonempty same l : l <> [] -> drop_duplicates same l <> [].
Proof.
  destruct l as [|r t]; [congruence|]. intros _.
  unfold drop_duplicates, duplicated. fold (kept_after same [] (r :: t)).
  rewrite kept_after_cons. cbn. discriminate.
Qed.

Lemma drop_duplicates_length same l :
  (List.length (drop_duplicates same l) <= List.length l)%nat.
Proof. apply sublist_length, (kept_after_sublist same []). Qed.

Lemma filter_split_length (f : Row -> bool) l :
  (List.length (List.filter f l) + List.length (List.filter (fun r => negb (f r)) l)
   = List.length l)%nat.
Proof. induction l as [|a l IH]; cbn; [reflexivity|]. destruct (f a); cbn; lia. Qed.

Lemma masked_rule_length mask same df :
  (List.length (masked_rule mask same df) <= List.length df)%nat.
Proof.
  unfold masked_rule. destruct (existsb mask df); [|lia].
  rewrite length_app. pose proof (drop_duplicates_length same (List.filter mask df)).
  pose proof (filter_split_length mask df). lia.
Qed.

Lemma masked_rule_nonempty mask same df : df <> [] -> masked_rule mask same df <> [].
Proof.
  intros N. unfold masked_rule. destruct (existsb mask df) eqn:E; [|exact N].
  assert (F : List.filter mask df <> []).
  { apply existsb_exists in E. destruct E as (x & Ix & Mx).
    intros F. assert (I : In x (List.filter mask df)) by (apply filter_In; auto).
    rewrite F in I. destruct I. }
  pose proof (drop_duplicates_nonempty same _ F) as D.
  destruct (drop_duplicates same (List.filter mask df)); [congruence|discriminate].
Qed.

(** The result holds no duplicate left by any of the three rules. *)
Lemma survivors_distinct (df : list Row) :
  NoDup (map OriginalHash (deduplicate_dataframe df))
  /\ forall a b,
       In a (deduplicate_dataframe df) -> In b (deduplicate_dataframe df) -> a <> b ->
       mask1 a && same_txnid_account a b = false
       /\ mask2 a && same_reference_date_amount_time a b = false
       /\ same_original_hash a b = false.
Proof.
  rewrite deduplicate_dataframe_unfold. unfold rule3, rule2, rule1.
  split; [apply (kept_after_hashes [])|].
  intros a b Ia Ib N.
  pose proof (kept_after_distinct _ same_original_hash_sym [] _ a b Ia Ib N) as H3.
  apply drop_duplicates_incl in Ia, Ib.
  pose proof (masked_rule_distinct _ same_reference_sym _ same_reference_mask
                _ a b Ia Ib N) as H2.
  apply masked_rule_incl in Ia, Ib.
  pose proof (masked_rule_distinct _ same_txnid_account_sym _ same_txnid_account_mask
                _ a b Ia Ib N) as H1.
  auto.
Qed.

(** X10.  The frame [deduplicate_dataframe] returns: its rows are rows of
    the input, it is empty only when the input is, and it holds no
    duplicate left by any of the three rules: the content hashes of its
    rows are pairwise different, and no two different rows of it share a
    transaction id and account (both present) or a reference with date,
    amount and time (reference present). *)
Theorem deduplicate_dataframe_survivors_distinct (df : list Row) :
  (forall r, In r (deduplicate_dataframe df) -> In r df)
  /\ (List.length (deduplicate_dataframe df) <= List.length df)%nat
  /\ (df <> [] -> deduplicate_dataframe df <> [])
  /\ NoDup (map OriginalHash (deduplicate_dataframe df))
  /\ forall a b,
       In a (deduplicate_dataframe df) -> In b (deduplicate_dataframe df) -> a <> b ->
       mask1 a && same_txnid_account a b = false
       /\ mask2 a && same_reference_date_amount_time a b = false
       /\ same_original_hash a b = false.
Proof.
  split; [intros r; apply deduplicate_dataframe_incl|].
  split; [|split; [|apply survivors_distinct]].
  - rewrite deduplicate_dataframe_unfold. unfold rule3, rule2, rule1.
    pose proof (drop_duplicates_length same_original_hash
                  (masked_rule mask2 same_reference_date_amount_time
                     (masked_rule mask1 same_txnid_account df))).
    pose proof (masked_rule_length mask2 same_reference_date_amount_time
                  (masked_rule mask1 same_txnid_account df)).
    pose proof (masked_rule_length mask1 same_txnid_account df). lia.
  - rewrite deduplicate_dataframe_unfold. unfold rule3, rule2, rule1.
    intros N. now apply drop_duplicates_nonempty, masked_rule_nonempty,
      masked_rule_nonempty.
Qed.

(** *** A second pass *)

Section SecondPass.

(** The rows that carry the fields come before the rows that do not. *)
Definition grouped (mask : Row -> bool) (l : list Row) : Prop :=
  exists la lb, l = (la ++ lb)%list
                /\ (forall x, In x la -> mask x = true)
                /\ (forall x, In x lb -> mask x = false).

Lemma negb_filter_all (mask : Row -> bool) l :
  (forall x, In x l -> mask x = false) -> List.filter (fun r => negb (mask r)) l = l.
Proof. intros A. apply filter_all. intros x I. now rewrite (A x I). Qed.

Lemma negb_filter_none (mask : Row -> bool) l :
  (forall x, In x l -> mask x = true) -> List.filter (fun r => negb (mask r)) l = [].
Proof. intros A. apply filter_none. intros x I. now rewrite (A x I). Qed.

Lemma grouped_filter (mask : Row -> bool) l :
  grouped mask l ->
  (List.filter mask l ++ List.filter (fun r => negb (mask r)) l)%list = l.
Proof.
  intros (la & lb & -> & A & B). rewrite !List.filter_app.
  rewrite (filter_all mask la A), (filter_none mask lb B),
    (negb_filter_none mask la A), (negb_filter_all mask lb B).
  now rewrite app_nil_r.
Qed.

Lemma sublist_In (l' l : list Row) x : sublist l' l -> In x l' -> In x l.
Proof.
  intros S I. apply list_elem_of_In. eapply elem_of_sublist; [|exact S].
  now apply list_elem_of_In.
Qed.

Lemma grouped_sublist (mask : Row -> bool) l' l :
  sublist l' l -> grouped mask l -> grouped mask l'.
Proof.
  intros S (la & lb & -> & A & B). apply sublist_app_r in S.
  destruct S as (ka & kb & -> & Sa & Sb). exists ka, kb.
  split; [reflexivity|]. split; intros x I.
  - apply A. eapply sublist_In; eauto.
  - apply B. eapply sublist_In; eauto.
Qed.

Lemma filter_sublist (f : Row -> bool) l : sublist (List.filter f l) l.
Proof.
  induction l as [|a l IH]; cbn; [constructor|].
  destruct (f a); [now apply sublist_skip|now apply sublist_cons].
Qed.

Lemma masked_rule_grouped mask same df : grouped mask (masked_rule mask same df).
Proof.
  unfold masked_rule. destruct (existsb mask df) eqn:E.
  - exists (drop_duplicates same (List.filter mask df)),
      (List.filter (fun r => negb (mask r)) df).
    split; [reflexivity|]. split; intros x I.
    + apply drop_duplicates_incl, filter_In in I. tauto.
    + apply filter_In in I. destruct I as [_ I]. now apply negb_true_iff.
  - exists [], df. split; [reflexivity|]. split; [intros x []|].
    now apply existsb_false_iff.
Qed.

(** The order [deduplicate_dataframe] leaves: the rows with a reference
    first, and in each of the two parts the rows with a transaction id
    and an account first. *)
Definition shaped (l : list Row) : Prop :=
  exists la lb, l = (la ++ lb)%list
                /\ (forall x, In x la -> mask2 x = true)
                /\ (forall x, In x lb -> mask2 x = false)
                /\ grouped mask1 la /\ grouped mask1 lb.

Lemma shaped_sublist l' l : sublist l' l -> shaped l -> shaped l'.
Proof.
  intros S (la & lb & -> & A & B & Ga & Gb). apply sublist_app_r in S.
  destruct S as (ka & kb & -> & Sa & Sb). exists ka, kb.
  split; [reflexivity|].
  split; [intros x I; apply A; eapply sublist_In; eauto|].
  split; [intros x I; apply B; eapply sublist_In; eauto|].
  split; eapply grouped_sublist; eauto.
Qed.

Lemma rule2_shaped l : grouped mask1 l -> shaped (rule2 l).
Proof.
  intros G. unfold rule2, masked_rule. destruct (existsb mask2 l) eqn:E.
  - exists (drop_duplicates same_reference_date_amount_time (List.filter mask2 l)),
      (List.filter (fun r => negb (mask2 r)) l).
    split; [reflexivity|].
    split; [intros x I; apply drop_duplicates_incl, filter_In in I; tauto|].
    split; [intros x I; apply filter_In in I; destruct I as [_ I];
            now apply negb_true_iff|].
    split.
    + eapply grouped_sublist; [|exact G].
      etransitivity; [apply (kept_after_sublist _ [])|apply filter_sublist].
    + eapply grouped_sublist; [apply filter_sublist|exact G].
  - exists [], l. split; [reflexivity|]. split; [intros x []|].
    split; [now apply existsb_false_iff|]. split; [|exact G].
    exists [], []. split; [reflexivity|]. split; intros x [].
Qed.

Lemma deduplicate_dataframe_shaped df : shaped (deduplicate_dataframe df).
Proof.
  rewrite deduplicate_dataframe_unfold.
  eapply shaped_sublist; [apply (kept_after_sublist _ [])|].
  apply rule2_shaped, masked_rule_grouped.
Qed.

(** [drop_duplicates] keeps a frame without duplicates as it is. *)
Lemma kept_after_id same seen l :
  NoDup l ->
  (forall a b, In a l -> In b l -> a <> b -> same a b = false) ->
  (forall a x, In a l -> In x seen -> same a x = false) ->
  kept_after same seen l = l.
Proof.
  revert seen. induction l as [|r t IH]; intros seen D P Q; [reflexivity|].
  rewrite kept_after_cons. apply NoDup_cons in D. destruct D as [Nr D].
  assert (E : existsb (same r) seen = false).
  { apply existsb_false_iff. intros x Ix. apply Q; [now left|exact Ix]. }
  rewrite E. f_equal. apply IH; [exact D| |].
  - intros a b Ia Ib. apply P; now right.
  - intros a x Ia [<-|Ix].
    + apply P; [now right|now left|]. intros ->. apply Nr. now apply list_elem_of_In.
    + apply Q; [now right|exact Ix].
Qed.

Lemma masked_rule_id mask same l :
  NoDup l ->
  (forall a b, In a l -> In b l -> a <> b -> mask a && same a b = false) ->
  masked_rule mask same l
  = (List.filter mask l ++ List.filter (fun r => negb (mask r)) l)%list.
Proof.
  intros D P. unfold masked_rule. destruct (existsb mask l) eqn:E.
  - f_equal. apply (kept_after_id same []).
    + eapply sublist_NoDup; [exact D|apply filter_sublist].
    + intros a b Ia Ib N. apply filter_In in Ia, Ib.
      destruct Ia as [Ia Ma], Ib as [Ib _].
      pose proof (P a b Ia Ib N) as F. now rewrite Ma in F.
    + intros a x _ [].
  - rewrite (filter_none mask l), (negb_filter_all mask l); [reflexivity| |];
      now apply existsb_false_iff.
Qed.

Lemma filter_split_perm (f : Row -> bool) l :
  (List.filter f l ++ List.filter (fun r => negb (f r)) l)%list ≡ₚ l.
Proof.
  induction l as [|a l IH]; cbn; [reflexivity|].
  destruct (f a); cbn.
  - now constructor.
  - rewrite <- Permutation_middle. now constructor.
Qed.

End SecondPass.

(** X11.  [deduplicate_dataframe] is idempotent: a second pass over its
    result returns that result, row for row and in the same order. *)
Theorem deduplicate_dataframe_idempotent (df : list Row) :
  deduplicate_dataframe (deduplicate_dataframe df) = deduplicate_dataframe df.
Proof.
  destruct (survivors_distinct df) as [H P].
  pose proof (deduplicate_dataframe_shaped df) as (la & lb & E & A & B & Ga & Gb).
  set (out := deduplicate_dataframe df) in *.
  assert (D : NoDup out) by (eapply NoDup_fmap_1; exact H).
  rewrite (deduplicate_dataframe_unfold out). unfold rule3, rule2, rule1.
  (* rule 1 *)
  rewrite (masked_rule_id mask1 same_txnid_account out D)
    by (intros a b Ia Ib N; now destruct (P a b Ia Ib N)).
  set (l1 := (List.filter mask1 out ++ List.filter (fun r => negb (mask1 r)) out)%list).
  assert (Pm : l1 ≡ₚ out) by apply filter_split_perm.
  assert (I1 : forall x, In x l1 -> In x out).
  { intros x I. apply list_elem_of_In. rewrite <- Pm. now apply list_elem_of_In. }
  (* rule 2 *)
  rewrite (masked_rule_id mask2 same_reference_date_amount_time l1)
    by (solve [now rewrite Pm]
        || (intros a b Ia Ib N; now destruct (P a b (I1 a Ia) (I1 b Ib) N) as (_ & ? & _))).
  assert (R2 : (List.filter mask2 l1 ++ List.filter (fun r => negb (mask2 r)) l1)%list
               = out).
  { unfold l1. rewrite E. rewrite !List.filter_app.
    assert (Fa : forall f, List.filter mask2 (List.filter f la) = List.filter f la).
    { intros f. apply filter_all. intros x I. apply filter_In in I. apply A. tauto. }
    assert (Fb : forall f, List.filter mask2 (List.filter f lb) = []).
    { intros f. apply filter_none. intros x I. apply filter_In in I. apply B. tauto. }
    assert (Na : forall f, List.filter (fun r => negb (mask2 r)) (List.filter f la) = []).
    { intros f. apply negb_filter_none. intros x I. apply filter_In in I. apply A. tauto. }
    assert (Nb : forall f, List.filter (fun r => negb (mask2 r)) (List.filter f lb)
                           = List.filter f lb).
    { intros f. apply negb_filter_all. intros x I. apply filter_In in I. apply B. tauto. }
    rewrite !Fa, !Fb, !Na, !Nb. rewrite !app_nil_r. cbn [app].
    now rewrite (grouped_filter mask1 la Ga), (grouped_filter mask1 lb Gb). }
  rewrite R2.
  (* rule 3 *)
  apply (kept_after_id same_original_hash []); [exact D| |intros a x _ []].
  intros a b Ia Ib N. now destruct (P a b Ia Ib N) as (_ & _ & ?).
Qed.

(** ** The processing log of an import *)

Lemma next_id_fresh (ids : list Z) (x : Z) : In x ids -> x < Db.next_id ids.
Proof.
  unfold Db.next_id. induction ids as [|y ids IH]; [intros []|].
  cbn [fold_right]. intros [->|I]; [lia|]. specialize (IH I). lia.
Qed.

Lemma filter_length_le {A} (P : A -> Prop) `{!forall x, Decision (P x)} (l : list A) :
  (List.length (filter P l) <= List.length l)%nat.
Proof. apply length_filter. Qed.

Section ImportLog.
Context `{PyLib}.

(** The entry [complete_operation] writes over the pending one. *)
Lemma complete_operation_log (s : Db.Store) (old : list Db.ProcessingLog)
    (e : Db.ProcessingLog) processed inserted skipped errors status :
  Db.processing_log s = (old ++ [e])%list ->
  Db.log_id e = Db.next_id (map Db.log_id old) ->
  Db.processing_log
    (complete_operation s (Db.log_id e) processed inserted skipped errors status)
  = (old ++ [ {| Db.log_id := Db.log_id e;
                 Db.log_operation_type := Db.log_operation_type e;
                 Db.log_source_file := Db.log_source_file e;
                 Db.log_records_processed := processed;
                 Db.log_records_inserted := inserted;
                 Db.log_records_skipped := skipped;
                 Db.log_error_count := errors;
                 Db.log_status := status |} ])%list.
Proof.
  intros L F. unfold complete_operation. cbn [Db.processing_log]. rewrite L, map_app.
  cbn [map]. rewrite Z.eqb_refl. f_equal.
  rewrite <- (map_id old) at 2. apply map_ext_in. intros x Ix.
  assert (Db.log_id x < Db.log_id e).
  { rewrite F. apply next_id_fresh. now apply in_map. }
  destruct (Z.eqb_spec (Db.log_id x) (Db.log_id e)); [lia|reflexivity].
Qed.

Lemma insert_keeps_log (s s' : Db.Store) ts n :
  insert_transactions_batch s ts = Some (n, s') ->
  Db.processing_log s' = Db.processing_log s
  /\ List.length (Db.transactions s')
     = (List.length (Db.transactions s) + List.length ts)%nat.
Proof.
  unfold insert_transactions_batch. destruct ts as [|t ts].
  - intros [= <- <-]. cbn. split; [reflexivity|lia].
  - destruct (decide _); [|discriminate]. intros [= <- <-].
    cbn [Db.processing_log Db.transactions]. split; [reflexivity|].
    apply (add_all_length (Db.transactions s) (t :: ts)).
Qed.

Lemma insert_fails_keeps (s : Db.Store) ts :
  insert_transactions_batch s ts = None -> ts <> [].
Proof. destruct ts; [discriminate|discriminate]. Qed.

End ImportLog.

(** X12.  Every run of [main] that reaches the import adds one entry to
    [processing_log], for the operation [csv_import_postgres] and the
    input path, and leaves the earlier entries as they were.  A run that
    completes records the status [completed] and its counts, where the
    rows processed are the rows inserted and the rows skipped, and the
    table has grown by the rows inserted.  A failed insert records
    [failed], no row inserted, and stores nothing.  A run that stops on
    an exception while the rows are prepared stores nothing either, and
    its entry stays [pending]. *)
Theorem main_logs_one_entry `{PyLib} (path : string) (errors : Z) (df : list Row)
    (s : Db.Store) :
  exists entry,
    Db.processing_log (snd (main path errors df s))
    = (Db.processing_log s ++ [entry])%list
    /\ Db.log_operation_type entry = "csv_import_postgres"
    /\ Db.log_source_file entry = Some path
    /\ match fst (main path errors df s) with
       | Completed new skipped =>
           Db.log_status entry = "completed"
           /\ Db.log_records_inserted entry = Z.of_nat (List.length new)
           /\ Db.log_records_skipped entry = Z.of_nat skipped
           /\ Db.log_records_processed entry
              = Db.log_records_inserted entry + Db.log_records_skipped entry
           /\ Db.log_error_count entry = errors
           /\ List.length (Db.transactions (snd (main path errors df s)))
              = (List.length (Db.transactions s) + List.length new)%nat
       | InsertFailed new =>
           Db.log_status entry = "failed"
           /\ Db.log_records_inserted entry = 0
           /\ Db.log_error_count entry = errors
           /\ new <> []
           /\ Db.transactions (snd (main path errors df s)) = Db.transactions s
       | Crashed =>
           Db.log_status entry = "pending"
           /\ Db.transactions (snd (main path errors df s)) = Db.transactions s
       end.
Proof.
  unfold main. cbv zeta.
  destruct (start_operation s "csv_import_postgres" (Some path)) as [log_id s0] eqn:S.
  unfold start_operation in S. injection S as Hid Hs0.
  set (e0 := {| Db.log_id := Db.next_id (map Db.log_id (Db.processing_log s));
                Db.log_operation_type := "csv_import_postgres";
                Db.log_source_file := Some path;
                Db.log_records_processed := 0;
                Db.log_records_inserted := 0;
                Db.log_records_skipped := 0;
                Db.log_error_count := 0;
                Db.log_status := "pending" |}) in *.
  assert (L0 : Db.processing_log s0 = (Db.processing_log s ++ [e0])%list)
    by (now rewrite <- Hs0).
  assert (T0 : Db.transactions s0 = Db.transactions s) by (now rewrite <- Hs0).
  assert (Ie : log_id = Db.log_id e0) by (now rewrite <- Hid).
  destruct (prepare_transactions_for_db (deduplicate_dataframe df)) as [ts|].
  2:{ exists e0. cbn [fst snd]. repeat split; assumption. }
  set (new := filter (fun t => p_row_hash t ∉ get_existing_row_hashes s0 (map p_row_hash ts)) ts).
  assert (Le : (List.length new <= List.length ts)%nat) by apply filter_length_le.
  destruct (insert_transactions_batch s0 new) as [[n s1]|] eqn:B.
  - destruct (insert_keeps_log s0 s1 new n B) as [L1 T1].
    cbn [fst snd]. rewrite Ie.
    rewrite (complete_operation_log s1 (Db.processing_log s) e0);
      [|now rewrite L1|reflexivity].
    eexists. split; [reflexivity|]. cbn. repeat split; try reflexivity; try lia.
    now rewrite T1, T0.
  - cbn [fst snd]. rewrite Ie.
    rewrite (complete_operation_log s0 (Db.processing_log s) e0);
      [|exact L0|reflexivity].
    eexists. split; [reflexivity|]. cbn. repeat split; try reflexivity.
    + now apply insert_fails_keeps in B.
    + exact T0.
Qed.

(** ** Files without a balance column *)

Section NoBalance.
Context `{PyLib}.

Lemma prepare_fails_iff (l : list Row) :
  prepare_transactions_for_db l = None
  <-> exists r, In r l /\ Balance r = NoBalanceColumn.
Proof.
  induction l as [|r l IH]; cbn [prepare_transactions_for_db].
  - split; [discriminate|intros (r & [] & _)].
  - unfold prepare_row. destruct (Balance r) as [|b] eqn:Br.
    + cbn. split; [|reflexivity]. intros _. exists r. split; [now left|exact Br].
    + assert (E : balance_or_none (BalanceCell b) <> None) by (destruct b; discriminate).
      destruct (balance_or_none (BalanceCell b)) as [bal|]; [|contradiction].
      destruct (prepare_transactions_for_db l) as [ts|].
      * split; [discriminate|]. intros (x & [<-|Ix] & Bx); [congruence|].
        assert (C : Some ts = None) by (apply IH; eauto). discriminate.
      * split; [|reflexivity]. intros _.
        destruct (proj1 IH eq_refl) as (x & Ix & Bx). exists x. split; [now right|exact Bx].
Qed.

End NoBalance.

(** X13.  A file without a balance column cannot be imported.  The cell
    of its rows for the balance is the empty string, which
    [prepare_transactions_for_db] hands to [float]: [main] stops on the
    exception exactly when a row that survives the deduplication has no
    balance cell, whatever the other rows are, and then nothing is
    stored.  So it stops for every batch, not empty, made of such files
    only. *)
Theorem import_stops_without_balance_column `{PyLib} (path : string) (errors : Z)
    (df : list Row) (s : Db.Store) :
  (fst (main path errors df s) = Crashed
   <-> exists r, In r (deduplicate_dataframe df) /\ Balance r = NoBalanceColumn)
  /\ (fst (main path errors df s) = Crashed ->
      Db.transactions (snd (main path errors df s)) = Db.transactions s)
  /\ (df <> [] -> (forall r, In r df -> Balance r = NoBalanceColumn) ->
      fst (main path errors df s) = Crashed).
Proof.
  pose proof (main_spec path errors df s) as M. cbv zeta in M.
  assert (C : fst (main path errors df s) = Crashed
              <-> prepare_transactions_for_db (deduplicate_dataframe df) = None).
  { destruct (prepare_transactions_for_db (deduplicate_dataframe df)) as [ts|].
    - destruct (decide _); destruct M as [-> _]; split; discriminate.
    - destruct M as [-> _]. tauto. }
  split; [now rewrite C, prepare_fails_iff|].
  split.
  - intros E. apply C in E. rewrite E in M. tauto.
  - intros N A. apply C, prepare_fails_iff.
    assert (N' : deduplicate_dataframe df <> []).
    { rewrite deduplicate_dataframe_unfold. unfold rule3, rule2, rule1.
      now apply drop_duplicates_nonempty, masked_rule_nonempty, masked_rule_nonempty. }
    destruct (deduplicate_dataframe df) as [|r l] eqn:D; [congruence|].
    exists r. split; [now left|]. apply A, deduplicate_dataframe_incl.
    rewrite D. now left.
Qed.

(** A row of a file that has no balance column. *)
Definition receipt_without_balance : Row :=
  with_fingerprints
    {| Date := "2024-01-03"; Description := "PARKING"; Amount := - 3 # 1;
       Source := "card"; TxnId := ""; Reference := ""; Time := ""; Account := "";
       Balance := NoBalanceColumn; OriginalHash := ""; PossibleDupGroup := "" |}.

Lemma import_stops_without_balance_column_witness :
  fst (main "downloads" 0 [receipt_without_balance] Examples.empty_store) = Crashed.
Proof.
  apply (proj2 (proj2 (import_stops_without_balance_column "downloads" 0
                         [receipt_without_balance] Examples.empty_store))).
  - discriminate.
  - intros r [<-|[]]. reflexivity.
Defined.

(** ** The verdict on a pair *)








(** ** A debit between parentheses *)




